(** * ack-generate [types]: the command that turns an OpenAPI3 document
    into Go type files (cmd/ack-generate/command/types.go).

    The command is embedded as state-passing code over an explicit [World]
    (standard input, a file tree, and the trace of every call that leaves the
    function).  Go's standard library is modelled where a property depends on
    what it computes ([filepath.Ext], [strings.Replace], the [os] calls); the
    packages the command only hands values to (the YAML and OpenAPI decoders,
    the resource and template packages) are an interface, [Collaborators]. *)

From Stdlib Require Import ZArith Ascii String.
From stdpp Require Import gmap strings list.

Local Open Scope string_scope.
Local Open Scope list_scope.

(** ** Byte sequences, results and errors *)

(** A Go [[]byte] and a Go [string] are both byte sequences. *)
Abbreviation bytes := string.

Inductive Errno := ENOENT | EACCES | ENOTDIR | EISDIR | EBADF.

(** A Go [error] value: one made by [fmt.Errorf], or an [*os.PathError]. *)
Inductive error :=
| errorString (msg : string)
| PathError (op path : string) (errno : Errno).

Inductive result (A : Type) :=
| Ok (a : A)
| Err (e : error).
Arguments Ok {A} a.
Arguments Err {A} e.

Definition os_IsNotExist (e : error) : bool :=
  match e with PathError _ _ ENOENT => true | _ => false end.

Definition os_IsPermission (e : error) : bool :=
  match e with PathError _ _ EACCES => true | _ => false end.

(** ** Strings *)

Definition isSlash (c : ascii) : bool := Ascii.eqb c "/".
Definition isDot (c : ascii) : bool := Ascii.eqb c ".".
(** The double-quote byte, and the one-byte string holding it. *)
Definition quote : ascii := "034"%char.
Definition quoteString : string := String quote EmptyString.
Definition isQuote (c : ascii) : bool := Ascii.eqb c quote.

(** [b[0]]; out of range Go panics, the callers below index only after
    [len(b) >= 2]. *)
Definition byte0 (b : bytes) : option ascii := String.get 0 b.

(** [filepath.Ext]: the suffix beginning at the final dot of the final
    element of the path, empty when there is no dot.  The Go loop scans from
    the end and stops at a separator; [extFrom] is that scan from the left,
    keeping the last candidate. *)
Fixpoint extFrom (cand : string) (s : string) : string :=
  match s with
  | EmptyString => cand
  | String c s' =>
      if isSlash c then extFrom "" s'
      else if isDot c then extFrom s s'
      else extFrom cand s'
  end.

Definition filepath_Ext (path : string) : string := extFrom "" path.

(** [strings.Replace(s, old, new, -1)] for a non-empty [old]: every
    non-overlapping occurrence, leftmost first.  [skip] counts the bytes of
    a matched [old] still to be dropped. *)
Fixpoint replaceFrom (old new : string) (skip : nat) (s : string) : string :=
  match s with
  | EmptyString => EmptyString
  | String c s' =>
      match skip with
      | S k => replaceFrom old new k s'
      | O =>
          if String.prefix old s
          then new +:+ replaceFrom old new (String.length old - 1) s'
          else String c (replaceFrom old new 0 s')
      end
  end.

Definition strings_ReplaceAll (s old new : string) : string :=
  if String.eqb old new then s else replaceFrom old new 0 s.

(** The bytes of [s] that satisfy [keep], in order. *)
Fixpoint filterString (keep : ascii -> bool) (s : string) : string :=
  match s with
  | EmptyString => EmptyString
  | String c s' =>
      if keep c then String c (filterString keep s') else filterString keep s'
  end.

Fixpoint occurs (c : ascii) (s : string) : bool :=
  match s with
  | EmptyString => false
  | String d s' => Ascii.eqb c d || occurs c s'
  end.

(** JSON's insignificant whitespace: space, tab, line feed, carriage
    return. *)
Definition isSpace (c : ascii) : bool :=
  Ascii.eqb c " " || Ascii.eqb c "009" || Ascii.eqb c "010" || Ascii.eqb c "013".

Fixpoint firstNonSpace (b : bytes) : option ascii :=
  match b with
  | EmptyString => None
  | String c b' => if isSpace c then firstNonSpace b' else Some c
  end.

Definition opensJSON (c : ascii) : bool :=
  Ascii.eqb c "{" || Ascii.eqb c "[".

(** ** The file tree *)

(** A regular file with its bytes, or a directory with its entries; the
    flag says whether the calling user may write it. *)
#[warnings="-register-all"]
Inductive Node :=
| File (data : bytes) (writable : bool)
| Dir (writable : bool) (entries : list (string * Node)).

Fixpoint entry (name : string) (ents : list (string * Node)) : option Node :=
  match ents with
  | [] => None
  | (k, n) :: ents' => if String.eqb k name then Some n else entry name ents'
  end.

Fixpoint setEntry (name : string) (n : Node) (ents : list (string * Node))
  : list (string * Node) :=
  match ents with
  | [] => [(name, n)]
  | (k, m) :: ents' =>
      if String.eqb k name then (k, n) :: ents'
      else (k, m) :: setEntry name n ents'
  end.

(** The elements of a path between separators. *)
Fixpoint splitSlash (s : string) : list string :=
  match s with
  | EmptyString => [EmptyString]
  | String c s' =>
      if isSlash c then EmptyString :: splitSlash s'
      else match splitSlash s' with
           | h :: t => String c h :: t
           | [] => [String c EmptyString]
           end
  end.

Definition pushElem (stack : list string) (el : string) : list string :=
  if String.eqb el "" || String.eqb el "." then stack
  else if String.eqb el ".." then tail stack
  else el :: stack.

(** The names to follow from the root of the tree: empty elements and [.]
    are skipped, [..] steps back.  The working directory is the root, so a
    relative path and the same path with a leading separator name the same
    node.  The step back is made on the names, before the tree is looked
    at, where the kernel makes it in the tree: the two agree on the paths
    that hold no [..] element. *)
Definition components (path : string) : list string :=
  rev (fold_left pushElem (splitSlash path) []).

(** The node reached from [n] along the names [p].  A node carries one
    write flag and no search permission, so the walk fails with [ENOENT]
    or [ENOTDIR] only, never with [EACCES]. *)
Fixpoint walk (n : Node) (p : list string) : Errno + Node :=
  match p with
  | [] => inr n
  | c :: p' =>
      match n with
      | File _ _ => inl ENOTDIR
      | Dir _ ents =>
          match entry c ents with
          | None => inl ENOENT
          | Some n' => walk n' p'
          end
      end
  end.

(** [open(2)] with [O_WRONLY|O_CREATE|O_TRUNC] followed by a write of
    [data]. *)
Fixpoint writeAt (data : bytes) (n : Node) (p : list string) : Errno + Node :=
  match p with
  | [] =>
      match n with
      | File _ w => if w then inr (File data w) else inl EACCES
      | Dir _ _ => inl EISDIR
      end
  | c :: p' =>
      match n with
      | File _ _ => inl ENOTDIR
      | Dir w ents =>
          match entry c ents with
          | Some n' =>
              match writeAt data n' p' with
              | inr n'' => inr (Dir w (setEntry c n'' ents))
              | inl e => inl e
              end
          | None =>
              match p' with
              | [] => if w then inr (Dir w (setEntry c (File data true) ents))
                      else inl EACCES
              | _ :: _ => inl ENOENT
              end
          end
      end
  end.

(** [os.MkdirAll]: every missing directory along the path is created; an
    existing directory is success, an existing file is [ENOTDIR], and
    nothing can be created inside a directory that is not writable.  The
    path is the list of names [components] gives, so on a path with a [..]
    element the directories before that element are not created, as
    [os.MkdirAll] would; a created directory is writable, the umask being
    left out. *)
Fixpoint mkdirAt (n : Node) (p : list string) : Errno + Node :=
  match p with
  | [] =>
      match n with
      | Dir _ _ => inr n
      | File _ _ => inl ENOTDIR
      end
  | c :: p' =>
      match n with
      | File _ _ => inl ENOTDIR
      | Dir w ents =>
          match entry c ents with
          | Some n' =>
              match mkdirAt n' p' with
              | inr n'' => inr (Dir w (setEntry c n'' ents))
              | inl e => inl e
              end
          | None =>
              if w then
                match mkdirAt (Dir true []) p' with
                | inr n'' => inr (Dir w (setEntry c n'' ents))
                | inl e => inl e
                end
              else inl EACCES
          end
      end
  end.

(** [O_WRONLY] and [O_CREATE] of package [os] on Linux. *)
Definition O_WRONLY : Z := 1.
Definition O_CREATE : Z := 64.

(** [filepath.Join] of two elements: empty elements are ignored and the
    result is cleaned by [clean] ([filepath.Clean]). *)
Definition joinWith (clean : string -> string) (a b : string) : string :=
  if String.eqb a "" then (if String.eqb b "" then "" else clean b)
  else if String.eqb b "" then clean a
  else clean (a +:+ "/" +:+ b).

(** ** The values the command passes around *)

(** [json.RawMessage]: a byte slice, possibly nil. *)
Definition RawMessage := option bytes.

(** [RawMessage.MarshalJSON]: [null] for a nil message, else the message. *)
Definition MarshalJSON (m : RawMessage) : bytes :=
  match m with
  | None => "null"
  | Some raw => raw
  end.

(** The types of the other packages, with the two fields the command reads:
    [api.Info.Extensions] and [res.Kind]. *)
Class DataModel := {
  Swagger : Type;
  Resource : Type;
  TypeDef : Type;
  Template : Type;
  Info_Extensions : Swagger -> gmap string RawMessage;
  Kind : Resource -> string
}.

(** The four constructors of package [template]. *)
Inductive TemplateKind := DocTemplate | GroupVersionInfoTemplate | TypesTemplate | ResourceTemplate.

(** The flags of the [types] subcommand. *)
Record Options := {
  optGenVersion : string;
  optOutputPath : string
}.

(** [init]: the defaults registered with [StringVarP]. *)
Definition defaultOptions : Options :=
  {| optGenVersion := "v1alpha1"; optOutputPath := "" |}.

Record FileInfo := { IsDir : bool }.

Section Command.
Context `{DM : DataModel}.

(** The [vars] structs handed to [Execute]. *)
Inductive TemplateVars :=
| DocTemplateVars (APIVersion APIGroup : string)
| GroupVersionInfoTemplateVars (APIVersion APIGroup : string)
| TypesTemplateVars (APIVersion : string) (TypeDefs : list TypeDef)
| ResourceTemplateVars (APIVersion : string) (Res : Resource).

(** Every call that leaves the command, with its arguments. *)
Inductive Event :=
| EvReadStdin
| EvReadFile (path : string)
| EvStat (path : string)
| EvMkdirAll (path : string)
| EvOpenFile (path : string) (flag : Z)
| EvWriteFile (path : string) (data : bytes)
| EvStdout (out : string)
| EvYAMLToJSON (b : bytes)
| EvLoadSwagger (b : bytes)
| EvResourcesFromAPI (api : Swagger)
| EvTypeDefsFromAPI (api : Swagger) (resources : list Resource)
| EvNewTemplate (k : TemplateKind) (dir : string)
| EvExecute (tpl : Template) (vars : TemplateVars).

Record World := {
  stdin : result bytes;
  root : Node;
  trace : list Event
}.

(** ** State passing *)

Definition IO (A : Type) : Type := World -> A * World.

Definition ret {A} (a : A) : IO A := fun w => (a, w).

Definition bind {A B} (m : IO A) (k : A -> IO B) : IO B :=
  fun w => let (a, w') := m w in k a w'.

Definition emit (e : Event) : IO unit :=
  fun w => (tt, {| stdin := stdin w; root := root w; trace := trace w ++ [e] |}).

Definition setRoot (r : Node) : IO unit :=
  fun w => (tt, {| stdin := stdin w; root := r; trace := trace w |}).

Definition getRoot : IO Node := fun w => (root w, w).

End Command.

Notation "'let*' x ':=' m 'in' k" := (bind m (fun x => k))
  (at level 10, x name, m at level 100, k at level 200).
Notation "m ';;' k" := (bind m (fun _ => k))
  (at level 100, k at level 200, right associativity).

Section Command.
Context `{DM : DataModel}.

(** ** Package [os], [ioutil] and [fmt] on the world *)

(** The node a path names; the empty path names nothing. *)
Definition resolve (r : Node) (path : string) : Errno + Node :=
  if String.eqb path "" then inl ENOENT else walk r (components path).

(** What each call finds in, and does to, a file tree. *)
Definition readNode (r : Node) (path : string) : result bytes :=
  match resolve r path with
  | inr (File data _) => Ok data
  | inr (Dir _ _) => Err (PathError "read" path EISDIR)
  | inl e => Err (PathError "open" path e)
  end.

Definition statNode (r : Node) (path : string) : result FileInfo :=
  match resolve r path with
  | inr (File _ _) => Ok {| IsDir := false |}
  | inr (Dir _ _) => Ok {| IsDir := true |}
  | inl e => Err (PathError "stat" path e)
  end.

Definition mkdirNode (r : Node) (path : string) : option error * Node :=
  if String.eqb path "" then (Some (PathError "mkdir" path ENOENT), r)
  else match mkdirAt r (components path) with
       | inr r' => (None, r')
       | inl e => (Some (PathError "mkdir" path e), r)
       end.

(** [os.OpenFile] followed by [Close] on success.  A missing file is
    created only when [flag] has [O_CREATE]; an existing file is opened as
    it is; opening for writing needs write permission and a regular
    file. *)
Definition openNode (r : Node) (path : string) (flag : Z) : option error * Node :=
  match resolve r path with
  | inr (File _ w) =>
      if w || Z.eqb (Z.land flag 3) 0 then (None, r)
      else (Some (PathError "open" path EACCES), r)
  | inr (Dir _ _) =>
      if Z.eqb (Z.land flag 3) 0 then (None, r)
      else (Some (PathError "open" path EISDIR), r)
  | inl ENOENT =>
      if Z.eqb (Z.land flag O_CREATE) 0 || String.eqb path ""
      then (Some (PathError "open" path ENOENT), r)
      else match writeAt "" r (components path) with
           | inr r' => (None, r')
           | inl e => (Some (PathError "open" path e), r)
           end
  | inl e => (Some (PathError "open" path e), r)
  end.

Definition writeNode (r : Node) (path : string) (data : bytes) : option error * Node :=
  if String.eqb path "" then (Some (PathError "open" path ENOENT), r)
  else match writeAt data r (components path) with
       | inr r' => (None, r')
       | inl e => (Some (PathError "open" path e), r)
       end.

(** [ioutil.ReadAll(os.Stdin)]: the whole stream, which is then at its
    end. *)
Definition ioutil_ReadAll_Stdin : IO (result bytes) :=
  fun w => (stdin w,
            {| stdin := match stdin w with Ok _ => Ok "" | Err e => Err e end;
               root := root w;
               trace := trace w ++ [EvReadStdin] |}).

Definition ioutil_ReadFile (path : string) : IO (result bytes) :=
  emit (EvReadFile path) ;;
  let* r := getRoot in
  ret (readNode r path).

Definition os_Stat (path : string) : IO (result FileInfo) :=
  emit (EvStat path) ;;
  let* r := getRoot in
  ret (statNode r path).

Definition os_MkdirAll (path : string) : IO (option error) :=
  emit (EvMkdirAll path) ;;
  let* r := getRoot in
  setRoot (snd (mkdirNode r path)) ;;
  ret (fst (mkdirNode r path)).

Definition os_OpenFile (path : string) (flag : Z) : IO (option error) :=
  emit (EvOpenFile path flag) ;;
  let* r := getRoot in
  setRoot (snd (openNode r path flag)) ;;
  ret (fst (openNode r path flag)).

Definition ioutil_WriteFile (path : string) (data : bytes) : IO (option error) :=
  emit (EvWriteFile path data) ;;
  let* r := getRoot in
  setRoot (snd (writeNode r path data)) ;;
  ret (fst (writeNode r path data)).

Definition newline : string := String "010" EmptyString.

Definition fmt_Println (s : string) : IO unit := emit (EvStdout (s +:+ newline)).

End Command.

(** ** The packages the command calls *)

(** Modelled from the spec: package [resource] is not among the sources at
    hand.  Section 4.3 gives the resource extractor as a function of the
    resolved document that returns an ordered list of resources,
    independent of map iteration order, or a fatal error; section 4.4 gives
    the type definition extractor as a function of the document and the
    resource list that returns a deduplicated, dependency-ordered list of
    type definitions, or a fatal error. *)
Class Extractors `{DM : DataModel} := {
  resource_ResourcesFromAPI : Swagger -> result (list Resource);
  resource_TypeDefsFromAPI : Swagger -> list Resource -> result (list TypeDef)
}.

(** The functions of the other packages that the command calls and whose
    results it only passes on.  [yaml_YAMLToJSON] and
    [openapi3_LoadSwaggerFromData] are the two decoders,
    [template_New k dir] is the constructor of kind [k] applied to
    [templatesDir], [template_Execute] the rendering into a fresh buffer. *)
Class Collaborators `{EX : Extractors} := {
  filepath_Clean : string -> string;
  strings_TrimSpace : string -> string;
  strcase_ToSnake : string -> string;
  yaml_YAMLToJSON : bytes -> result bytes;
  openapi3_LoadSwaggerFromData : bytes -> result Swagger;
  template_New : TemplateKind -> string -> result Template;
  template_Execute : Template -> TemplateVars -> result bytes;
  templatesDir : string
}.

Section Generate.
Context `{CO : Collaborators}.
Variable opts : Options.

Definition filepath_Join (a b : string) : string := joinWith filepath_Clean a b.

(** Calls into the other packages, recorded in the trace. *)
Definition call_YAMLToJSON (b : bytes) : IO (result bytes) :=
  emit (EvYAMLToJSON b) ;; ret (yaml_YAMLToJSON b).

Definition call_LoadSwaggerFromData (b : bytes) : IO (result Swagger) :=
  emit (EvLoadSwagger b) ;; ret (openapi3_LoadSwaggerFromData b).

Definition call_ResourcesFromAPI (api : Swagger) : IO (result (list Resource)) :=
  emit (EvResourcesFromAPI api) ;; ret (resource_ResourcesFromAPI api).

Definition call_TypeDefsFromAPI (api : Swagger) (resources : list Resource)
  : IO (result (list TypeDef)) :=
  emit (EvTypeDefsFromAPI api resources) ;; ret (resource_TypeDefsFromAPI api resources).

Definition call_NewTemplate (k : TemplateKind) : IO (result Template) :=
  emit (EvNewTemplate k templatesDir) ;; ret (template_New k templatesDir).

Definition call_Execute (tpl : Template) (vars : TemplateVars) : IO (result bytes) :=
  emit (EvExecute tpl vars) ;; ret (template_Execute tpl vars).

(** ** types.go *)

Inductive contentType := ctUnknown | ctJSON | ctYAML.

Definition contentType_eqb (a b : contentType) : bool :=
  match a, b with
  | ctUnknown, ctUnknown | ctJSON, ctJSON | ctYAML, ctYAML => true
  | _, _ => false
  end.

Definition errInvalidInvocation : error :=
  errorString "expected OpenAPI3 descriptor document either via STDIN or path argument.".

Definition errEmptyDocument (b : bytes) : error :=
  errorString ("expected OpenAPI3 descriptor document but got '" +:+ b +:+ "'.").

Definition errNotDirectory (path : string) : error :=
  errorString ("expected " +:+ path +:+ " to be a directory.").

Definition errNotWriteable (path : string) : error :=
  errorString (path +:+ " is not a writeable directory.").

(** [ensureOutputDir], lines 67-93. *)
Definition ensureOutputDir : IO (bool * option error) :=
  if String.eqb (optOutputPath opts) "" then ret (false, None)
  else
    let* st := os_Stat (optOutputPath opts) in
    match st with
    | Err err =>
        if os_IsNotExist err then
          let* e := os_MkdirAll (optOutputPath opts) in ret (false, e)
        else ret (false, Some err)
    | Ok fi =>
        if negb (IsDir fi) then
          ret (false, Some (errNotDirectory (optOutputPath opts)))
        else
          let testPath := filepath_Join (optOutputPath opts) "test" in
          let* f := os_OpenFile testPath O_WRONLY in
          match f with
          | Some err =>
              if os_IsPermission err then
                ret (true, Some (errNotWriteable (optOutputPath opts)))
              else ret (true, Some err)
          | None => ret (true, None)
          end
    end.

(** [apiGroupFromSwagger], lines 135-143. *)
Definition apiGroupFromSwagger (api : Swagger) : string :=
  let apiAliasStr :=
    match Info_Extensions api !! "x-aws-api-alias" with
    | Some apiAlias => MarshalJSON apiAlias
    | None => "unknown"
    end in
  let apiGroup := apiAliasStr +:+ ".services.k8s.aws" in
  strings_ReplaceAll apiGroup quoteString "".

Definition banner (name : string) : string :=
  "============================= " +:+ name +:+ " ======================================".

(** The tail shared by the four [write...Go] functions: build the
    template, execute it into a buffer, then print the buffer under a
    banner when no output path is set, or write it to [fileName] under the
    output path. *)
Definition renderTo (k : TemplateKind) (vars : TemplateVars) (fileName : string)
  : IO (option error) :=
  let* t := call_NewTemplate k in
  match t with
  | Err err => ret (Some err)
  | Ok tpl =>
      let* x := call_Execute tpl vars in
      match x with
      | Err err => ret (Some err)
      | Ok b =>
          if String.eqb (optOutputPath opts) "" then
            fmt_Println (banner fileName) ;;
            fmt_Println (strings_TrimSpace b) ;;
            ret None
          else
            let path := filepath_Join (optOutputPath opts) fileName in
            ioutil_WriteFile path b
      end
  end.

(** [writeDocGo], lines 145-167. *)
Definition writeDocGo (api : Swagger) : IO (option error) :=
  let apiGroup := apiGroupFromSwagger api in
  renderTo DocTemplate (DocTemplateVars (optGenVersion opts) apiGroup) "doc.go".

(** [writeGroupVersionInfoGo], lines 169-191. *)
Definition writeGroupVersionInfoGo (api : Swagger) : IO (option error) :=
  let apiGroup := apiGroupFromSwagger api in
  renderTo GroupVersionInfoTemplate
    (GroupVersionInfoTemplateVars (optGenVersion opts) apiGroup)
    "groupversion_info.go".

(** [writeTypesGo], lines 193-214. *)
Definition writeTypesGo (typeDefs : list TypeDef) : IO (option error) :=
  renderTo TypesTemplate (TypesTemplateVars (optGenVersion opts) typeDefs) "types.go".

(** [writeResourceGo], lines 216-238.  Its banner goes through [Printf]
    with the newline in the format, which prints the bytes [Println]
    prints. *)
Definition writeResourceGo (res : Resource) : IO (option error) :=
  let resFileName := strcase_ToSnake (Kind res) +:+ ".go" in
  renderTo ResourceTemplate (ResourceTemplateVars (optGenVersion opts) res) resFileName.

(** The inner [switch ext], lines 254-259. *)
Definition contentTypeOfExt (ext : string) : contentType :=
  if String.eqb ext "json" then ctJSON
  else if String.eqb ext "yaml" || String.eqb ext "yml" then ctYAML
  else ctUnknown.

(** The condition of line 274, [b] holding at least one byte. *)
Definition wantsYAML (ct : contentType) (b : bytes) : bool :=
  contentType_eqb ct ctYAML
  || (contentType_eqb ct ctUnknown
      && match byte0 b with
         | Some c => negb (Ascii.eqb c "{") && negb (Ascii.eqb c "[")
         | None => false
         end).

(** [getAPI] from line 267 on, with the bytes read and the content type
    set by the [switch]. *)
Definition decodeAPI (ct : contentType) (b : bytes) : IO (result Swagger) :=
  if Nat.ltb (String.length b) 2 then ret (Err (errEmptyDocument b))
  else
    let* jsonb :=
      if wantsYAML ct b then
        let* y := call_YAMLToJSON b in
        match y with
        | Ok j => ret j
        | Err _ => ret b
        end
      else ret b in
    let* l := call_LoadSwaggerFromData jsonb in
    match l with
    | Err err => ret (Err err)
    | Ok api => ret (Ok api)
    end.

(** [getAPI], lines 242-287. *)
Definition getAPI (args : list string) : IO (result Swagger) :=
  match args with
  | [] =>
      let* r := ioutil_ReadAll_Stdin in
      match r with
      | Err _ => ret (Err errInvalidInvocation)
      | Ok b => decodeAPI ctUnknown b
      end
  | [arg0] =>
      let fp := filepath_Clean arg0 in
      let ext := filepath_Ext fp in
      let contentType := contentTypeOfExt ext in
      let* r := ioutil_ReadFile fp in
      match r with
      | Err err => ret (Err err)
      | Ok b => decodeAPI contentType b
      end
  | _ => ret (Err errInvalidInvocation)
  end.

(** The loop of lines 127-131. *)
Fixpoint writeResources (resources : list Resource) : IO (option error) :=
  match resources with
  | [] => ret None
  | res :: rest =>
      let* e := writeResourceGo res in
      match e with
      | Some err => ret (Some err)
      | None => writeResources rest
      end
  end.

(** [generateTypes], lines 97-133. *)
Definition generateTypes (args : list string) : IO (option error) :=
  let* a := getAPI args in
  match a with
  | Err err => ret (Some err)
  | Ok api =>
  let* r := call_ResourcesFromAPI api in
  match r with
  | Err err => ret (Some err)
  | Ok resources =>
  let* t := call_TypeDefsFromAPI api resources in
  match t with
  | Err err => ret (Some err)
  | Ok typeDefs =>
  let* d := ensureOutputDir in
  match snd d with
  | Some err => ret (Some err)
  | None =>
  let* e := writeDocGo api in
  match e with
  | Some err => ret (Some err)
  | None =>
  let* e := writeGroupVersionInfoGo api in
  match e with
  | Some err => ret (Some err)
  | None =>
  let* e := writeTypesGo typeDefs in
  match e with
  | Some err => ret (Some err)
  | None => writeResources resources
  end end end end end end end.

End Generate.

(** ** What a run reads, calls and leaves behind *)

Section Observations.
Context `{CO : Collaborators}.
Variable opts : Options.

(** The world [w] once the calls [evs] have been made, the file tree
    being [r] by then. *)
Definition afterIn (w : World) (r : Node) (evs : list Event) : World :=
  {| stdin := stdin w; root := r; trace := trace w ++ evs |}.

Definition after (w : World) (evs : list Event) : World := afterIn w (root w) evs.

(** The content type the [switch] of lines 246-265 leaves in place. *)
Definition hintOf (args : list string) : contentType :=
  match args with
  | [arg0] => contentTypeOfExt (filepath_Ext (filepath_Clean arg0))
  | _ => ctUnknown
  end.

(** The bytes the [switch] reads, when the read succeeds. *)
Definition inputOf (args : list string) (w : World) : option bytes :=
  match args with
  | [] => match stdin w with Ok b => Some b | Err _ => None end
  | [arg0] =>
      match readNode (root w) (filepath_Clean arg0) with
      | Ok b => Some b
      | Err _ => None
      end
  | _ => None
  end.

Definition readEvent (args : list string) : Event :=
  match args with
  | [arg0] => EvReadFile (filepath_Clean arg0)
  | _ => EvReadStdin
  end.

Definition afterRead (args : list string) (w : World) : World :=
  match args with
  | [] => snd (ioutil_ReadAll_Stdin w)
  | _ => after w [readEvent args]
  end.

(** The bytes handed to the OpenAPI loader. *)
Definition jsonOf (ct : contentType) (b : bytes) : bytes :=
  if wantsYAML ct b then
    match yaml_YAMLToJSON b with
    | Ok j => j
    | Err _ => b
    end
  else b.

Definition decodeEvents (ct : contentType) (b : bytes) : list Event :=
  if wantsYAML ct b then [EvYAMLToJSON b; EvLoadSwagger (jsonOf ct b)]
  else [EvLoadSwagger b].

Definition isOutput (e : Event) : bool :=
  match e with
  | EvStdout _ | EvWriteFile _ _ => true
  | _ => false
  end.

(** The calls that can change the file tree, or probe it for writing. *)
Definition touchesFiles (e : Event) : bool :=
  match e with
  | EvMkdirAll _ | EvOpenFile _ _ | EvWriteFile _ _ => true
  | _ => false
  end.

Definition isDirCall (e : Event) : bool :=
  match e with
  | EvStat _ | EvMkdirAll _ | EvOpenFile _ _ => true
  | _ => false
  end.

(** The error [ensureOutputDir] makes of the probe's result, lines 85-92. *)
Definition probeError (f : option error) : option error :=
  match f with
  | Some err =>
      if os_IsPermission err then Some (errNotWriteable (optOutputPath opts))
      else Some err
  | None => None
  end.

(** One artifact: the template constructor, the [vars] it is executed
    with, and the file name it goes by. *)
Record Artifact := {
  art_kind : TemplateKind;
  art_vars : TemplateVars;
  art_file : string
}.

Definition docArtifact (api : Swagger) : Artifact :=
  {| art_kind := DocTemplate;
     art_vars := DocTemplateVars (optGenVersion opts) (apiGroupFromSwagger api);
     art_file := "doc.go" |}.

Definition groupVersionInfoArtifact (api : Swagger) : Artifact :=
  {| art_kind := GroupVersionInfoTemplate;
     art_vars := GroupVersionInfoTemplateVars (optGenVersion opts) (apiGroupFromSwagger api);
     art_file := "groupversion_info.go" |}.

Definition typesArtifact (typeDefs : list TypeDef) : Artifact :=
  {| art_kind := TypesTemplate;
     art_vars := TypesTemplateVars (optGenVersion opts) typeDefs;
     art_file := "types.go" |}.

Definition resourceArtifact (res : Resource) : Artifact :=
  {| art_kind := ResourceTemplate;
     art_vars := ResourceTemplateVars (optGenVersion opts) res;
     art_file := strcase_ToSnake (Kind res) +:+ ".go" |}.

(** The artifacts of one run, in the order lines 115-131 write them. *)
Definition artifacts (api : Swagger) (resources : list Resource) (typeDefs : list TypeDef)
  : list Artifact :=
  [docArtifact api; groupVersionInfoArtifact api; typesArtifact typeDefs]
  ++ map resourceArtifact resources.

Definition writeArtifact (a : Artifact) : IO (option error) :=
  renderTo opts (art_kind a) (art_vars a) (art_file a).

(** The calls that put rendered bytes [b] out under [fileName]. *)
Definition outputEvents (fileName : string) (b : bytes) : list Event :=
  if String.eqb (optOutputPath opts) "" then
    [EvStdout (banner fileName +:+ newline);
     EvStdout (strings_TrimSpace b +:+ newline)]
  else [EvWriteFile (filepath_Join (optOutputPath opts) fileName) b].

(** The calls [writeArtifact] makes; they do not depend on the world. *)
Definition artifactEvents (a : Artifact) : list Event :=
  EvNewTemplate (art_kind a) templatesDir ::
  match template_New (art_kind a) templatesDir with
  | Err _ => []
  | Ok tpl =>
      EvExecute tpl (art_vars a) ::
      match template_Execute tpl (art_vars a) with
      | Err _ => []
      | Ok b => outputEvents (art_file a) b
      end
  end.

(** The template was built and executed, and the bytes were put out
    once. *)
Definition rendered (a : Artifact) : Prop :=
  exists tpl b,
    template_New (art_kind a) templatesDir = Ok tpl
    /\ template_Execute tpl (art_vars a) = Ok b
    /\ artifactEvents a =
       [EvNewTemplate (art_kind a) templatesDir; EvExecute tpl (art_vars a)]
       ++ outputEvents (art_file a) b.

(** Lines 115-131 as one loop: each artifact in turn, stopping at the
    first error. *)
Fixpoint writeAll (arts : list Artifact) : IO (option error) :=
  match arts with
  | [] => ret None
  | a :: rest =>
      let* e := writeArtifact a in
      match e with
      | Some err => ret (Some err)
      | None => writeAll rest
      end
  end.

(** Lines 98-109: the document, the resources and the type definitions
    that the emission works from. *)
Definition compile (args : list string)
  : IO (result (Swagger * list Resource * list TypeDef)) :=
  let* a := getAPI args in
  match a with
  | Err err => ret (Err err)
  | Ok api =>
      let* r := call_ResourcesFromAPI api in
      match r with
      | Err err => ret (Err err)
      | Ok resources =>
          let* t := call_TypeDefsFromAPI api resources in
          match t with
          | Err err => ret (Err err)
          | Ok typeDefs => ret (Ok (api, resources, typeDefs))
          end
      end
  end.

(** What [compile] returns, and the calls it adds, given what [getAPI]
    returned. *)
Definition extract (api : result Swagger)
  : result (Swagger * list Resource * list TypeDef) :=
  match api with
  | Err err => Err err
  | Ok api =>
      match resource_ResourcesFromAPI api with
      | Err err => Err err
      | Ok resources =>
          match resource_TypeDefsFromAPI api resources with
          | Err err => Err err
          | Ok typeDefs => Ok (api, resources, typeDefs)
          end
      end
  end.

Definition extractEvents (api : result Swagger) : list Event :=
  match api with
  | Err _ => []
  | Ok api =>
      EvResourcesFromAPI api ::
      match resource_ResourcesFromAPI api with
      | Err _ => []
      | Ok resources => [EvTypeDefsFromAPI api resources]
      end
  end.

Definition isLoadCall (e : Event) : bool :=
  match e with
  | EvReadStdin | EvReadFile _ | EvYAMLToJSON _ | EvLoadSwagger _ => true
  | _ => false
  end.

Definition isExtractCall (e : Event) : bool :=
  match e with
  | EvResourcesFromAPI _ | EvTypeDefsFromAPI _ _ => true
  | _ => false
  end.


Definition notQuote (c : ascii) : bool := negb (isQuote c).

(** A path that names a regular file the user may write. *)
Definition openable (r : Node) (path : string) : Prop :=
  exists data, resolve r path = inr (File data true).

End Observations.

(** ** A small environment to run the command in *)

Module Stub.

(** A decoded document: its extension attributes and the kinds of its
    resources. *)
Record Doc := {
  doc_extensions : gmap string RawMessage;
  doc_kinds : list string
}.

Definition data : DataModel :=
  {| Swagger := Doc;
     Resource := string;
     TypeDef := string;
     Template := TemplateKind;
     Info_Extensions := doc_extensions;
     Kind := fun res => res |}.

(** [filepath.Clean] on Unix paths: separators collapsed, [.] elements
    dropped, [..] resolved against the element before it. *)
Definition cleanPush (rooted : bool) (stack : list string) (el : string) : list string :=
  if String.eqb el "" || String.eqb el "." then stack
  else if String.eqb el ".." then
    match stack with
    | top :: rest => if String.eqb top ".." then el :: stack else rest
    | [] => if rooted then [] else [el]
    end
  else el :: stack.

Fixpoint joinSlash (els : list string) : string :=
  match els with
  | [] => ""
  | [el] => el
  | el :: rest => el +:+ "/" +:+ joinSlash rest
  end.

Definition clean (path : string) : string :=
  let rooted := String.prefix "/" path in
  let body := joinSlash (rev (fold_left (cleanPush rooted) (splitSlash path) [])) in
  if rooted then "/" +:+ body
  else if String.eqb body "" then "." else body.

Fixpoint trimLeft (s : string) : string :=
  match s with
  | EmptyString => EmptyString
  | String c s' => if isSpace c then trimLeft s' else s
  end.

Fixpoint trimRight (s : string) : string :=
  match s with
  | EmptyString => EmptyString
  | String c s' =>
      match trimRight s' with
      | EmptyString => if isSpace c then EmptyString else String c EmptyString
      | t => String c t
      end
  end.

Definition lower (c : ascii) : ascii :=
  let n := nat_of_ascii c in
  if Nat.leb 65 n && Nat.leb n 90 then ascii_of_nat (n + 32) else c.

Fixpoint lowerString (s : string) : string :=
  match s with
  | EmptyString => EmptyString
  | String c s' => String (lower c) (lowerString s')
  end.

Fixpoint lookupBytes {A} (key : bytes) (table : list (bytes * A)) : option A :=
  match table with
  | [] => None
  | (k, v) :: table' => if String.eqb k key then Some v else lookupBytes key table'
  end.

Definition memKind (k : TemplateKind) (ks : list TemplateKind) : bool :=
  existsb (fun k' => match k, k' with
                     | DocTemplate, DocTemplate
                     | GroupVersionInfoTemplate, GroupVersionInfoTemplate
                     | TypesTemplate, TypesTemplate
                     | ResourceTemplate, ResourceTemplate => true
                     | _, _ => false
                     end) ks.

Definition render (vars : @TemplateVars data) : bytes :=
  match vars with
  | DocTemplateVars v g => "// +groupName=" +:+ g
  | GroupVersionInfoTemplateVars v g => "package " +:+ v
  | TypesTemplateVars v tds => "package " +:+ v
  | ResourceTemplateVars v res => "type " +:+ res +:+ " struct"
  end.

(** The extractors read the kinds off the document. *)
Definition extractors : @Extractors data :=
  {| resource_ResourcesFromAPI := fun api : @Swagger data =>
       Ok (doc_kinds api : list (@Resource data));
     resource_TypeDefsFromAPI := fun (api : @Swagger data) (resources : list (@Resource data)) =>
       Ok (map (fun k : string => k +:+ "Spec") resources : list (@TypeDef data)) |}.

(** The decoders answer from two tables, and the templates named in
    [missing] cannot be built. *)
Definition env (yamls : list (bytes * bytes)) (docs : list (bytes * Doc))
    (missing : list TemplateKind) : @Collaborators data extractors :=
  {| filepath_Clean := clean;
     strings_TrimSpace := fun s => trimRight (trimLeft s);
     strcase_ToSnake := lowerString;
     yaml_YAMLToJSON := fun b =>
       match lookupBytes b yamls with
       | Some j => Ok j
       | None => Err (errorString "yaml: did not find expected node content")
       end;
     openapi3_LoadSwaggerFromData := fun b =>
       match lookupBytes b docs with
       | Some d => Ok (d : @Swagger data)
       | None => Err (errorString "failed to unmarshal data")
       end;
     template_New := fun k dir =>
       if memKind k missing then Err (errorString "template: pattern matches no files")
       else Ok (k : @Template data);
     template_Execute := fun tpl vars => Ok (render vars);
     templatesDir := "templates" |}.

(** A document with one resource, and the tables that decode it. *)
Definition widgets : Doc := {| doc_extensions := ∅; doc_kinds := ["Widget"] |}.

Definition yamls : list (bytes * bytes) := [("{a: 1}", "{}"); (" {}", "{}")].
Definition docs : list (bytes * Doc) := [("{}", widgets)].

(** The tree: a YAML document, and a directory that is not writable. *)
Definition tree : Node :=
  Dir true [("api.yaml", File "{a: 1}" true);
            ("api.json", File "{}" true);
            ("ro", Dir false []);
            ("gen", Dir true [])].

Definition world (input : bytes) : @World data :=
  {| stdin := Ok input; root := tree; trace := [] |}.

Definition toDir (out : string) : Options :=
  {| optGenVersion := "v1alpha1"; optOutputPath := out |}.

(** Every template can be built. *)
Definition plain : @Collaborators data extractors := env yamls docs [].


(** A document whose alias attribute is the JSON string rds, quotes
    included. *)
Definition rds : Doc :=
  {| doc_extensions :=
       {[ "x-aws-api-alias" := Some (quoteString +:+ "rds" +:+ quoteString) ]};
     doc_kinds := ["DBInstance"] |}.

End Stub.

(** ** What a run leaves in the file tree *)

Section TreeObservations.
Context `{CO : Collaborators}.
Variable opts : Options.

Definition isStdout (e : Event) : bool :=
  match e with
  | EvStdout _ => true
  | _ => false
  end.

(** The names [ioutil.WriteFile] follows for the file of an artifact. *)
Definition artifactPath (a : Artifact) : list string :=
  components (filepath_Join (optOutputPath opts) (art_file a)).

(** The bytes the template of an artifact renders. *)
Definition rendersTo (a : Artifact) (b : bytes) : Prop :=
  exists tpl,
    template_New (art_kind a) templatesDir = Ok tpl
    /\ template_Execute tpl (art_vars a) = Ok b.

(** What an artifact prints when no output path is set: its banner line
    and its trimmed text, once its template is built and executed. *)
Definition printedEvents (a : Artifact) : list Event :=
  match template_New (art_kind a) templatesDir with
  | Ok tpl =>
      match template_Execute tpl (art_vars a) with
      | Ok b => [EvStdout (banner (art_file a) +:+ newline);
                 EvStdout (strings_TrimSpace b +:+ newline)]
      | Err _ => []
      end
  | Err _ => []
  end.

(** A path with no [..] element: on these the names [components] gives
    are the ones the kernel follows. *)
Definition noParent (path : string) : Prop := ".." ∉ splitSlash path.

(** [filepath.Join] puts a name directly under the directory [out]. *)
Definition joinsUnder (out name : string) : Prop :=
  filepath_Join out name <> ""
  /\ components (filepath_Join out name) = components out ++ [name].


End TreeObservations.


(** * Properties *)

(** ** [filepath.Ext] and the content-type switch *)

Example filepath_Ext_samples :
  filepath_Ext "api.yaml" = ".yaml"
  /\ filepath_Ext "model/api.json" = ".json"
  /\ filepath_Ext "a.b/c" = ""
  /\ filepath_Ext "pkg.tar.gz" = ".gz"
  /\ filepath_Ext "json" = "".
Proof. repeat split; reflexivity. Qed.

(** Whatever the scan returns is the candidate it started with, or begins
    with the dot it stopped at, or is empty. *)
Lemma extFrom_shape (s cand : string) :
  extFrom cand s = cand
  \/ extFrom cand s = EmptyString
  \/ exists t, extFrom cand s = String "." t.
Proof.
  revert cand. induction s as [|c s IH]; intros cand; simpl.
  - by left.
  - destruct (isSlash c) eqn:Hs.
    + destruct (IH EmptyString) as [H|[H|H]]; auto.
    + destruct (isDot c) eqn:Hd.
      * apply Ascii.eqb_eq in Hd. subst c.
        destruct (IH (String "." s)) as [H|[H|H]]; eauto.
      * apply IH.
Qed.

Lemma filepath_Ext_shape (path : string) :
  filepath_Ext path = EmptyString \/ exists t, filepath_Ext path = String "." t.
Proof.
  unfold filepath_Ext. destruct (extFrom_shape path EmptyString) as [H|[H|H]]; auto.
Qed.

Section ContentType.
Context `{CO : Collaborators}.

(** No path has an extension that the switch of lines 254-259 matches. *)
Lemma contentTypeOfExt_Ext (path : string) :
  contentTypeOfExt (filepath_Ext path) = ctUnknown.
Proof.
  destruct (filepath_Ext_shape path) as [H|[t H]]; rewrite H; reflexivity.
Qed.

End ContentType.

(** ** [strings.Replace] of a single byte by nothing *)

Lemma prefix_quote (c : ascii) (s : string) :
  String.prefix quoteString (String c s) = isQuote c.
Proof.
  change (String.prefix quoteString (String c s))
    with (if ascii_dec quote c then String.prefix EmptyString s else false).
  unfold isQuote. destruct (ascii_dec quote c) as [E|N].
  - rewrite <- E, Ascii.eqb_refl. by destruct s.
  - symmetry. apply Ascii.eqb_neq. congruence.
Qed.

Lemma replaceFrom_quote (s : string) :
  replaceFrom quoteString EmptyString 0 s = filterString (fun c => negb (isQuote c)) s.
Proof.
  induction s as [|c s IH]; [reflexivity|].
  cbn [replaceFrom filterString]. rewrite prefix_quote.
  destruct (isQuote c); simpl; by rewrite IH.
Qed.

Lemma filterString_app (keep : ascii -> bool) (s t : string) :
  filterString keep (s +:+ t) = filterString keep s +:+ filterString keep t.
Proof.
  induction s as [|c s IH]; [reflexivity|].
  simpl. destruct (keep c); simpl; by rewrite IH.
Qed.

Lemma occurs_filterString (c : ascii) (s : string) :
  occurs c (filterString (fun d => negb (Ascii.eqb d c)) s) = false.
Proof.
  induction s as [|d s IH]; [reflexivity|].
  simpl. destruct (Ascii.eqb d c) eqn:E; simpl; [exact IH|].
  rewrite Ascii.eqb_sym, E. exact IH.
Qed.

(** ** Runs of the primitives *)

Section Runs.
Context `{CO : Collaborators}.
Variable opts : Options.

Lemma afterIn_afterIn (w : World) (r r' : Node) (evs evs' : list Event) :
  afterIn (afterIn w r evs) r' evs' = afterIn w r' (evs ++ evs').
Proof. unfold afterIn. simpl. by rewrite app_assoc. Qed.

Lemma after_nil (w : World) : after w [] = w.
Proof. destruct w. unfold after, afterIn. simpl. by rewrite app_nil_r. Qed.

Lemma ioutil_ReadFile_run (path : string) (w : World) :
  ioutil_ReadFile path w = (readNode (root w) path, after w [EvReadFile path]).
Proof. reflexivity. Qed.

Lemma os_Stat_run (path : string) (w : World) :
  os_Stat path w = (statNode (root w) path, after w [EvStat path]).
Proof. reflexivity. Qed.

Lemma os_MkdirAll_run (path : string) (w : World) :
  os_MkdirAll path w =
  (fst (mkdirNode (root w) path),
   afterIn w (snd (mkdirNode (root w) path)) [EvMkdirAll path]).
Proof. reflexivity. Qed.

Lemma os_OpenFile_run (path : string) (flag : Z) (w : World) :
  os_OpenFile path flag w =
  (fst (openNode (root w) path flag),
   afterIn w (snd (openNode (root w) path flag)) [EvOpenFile path flag]).
Proof. reflexivity. Qed.

Lemma ioutil_WriteFile_run (path : string) (data : bytes) (w : World) :
  ioutil_WriteFile path data w =
  (fst (writeNode (root w) path data),
   afterIn w (snd (writeNode (root w) path data)) [EvWriteFile path data]).
Proof. reflexivity. Qed.

(** Opening without [O_CREATE] leaves the tree as it is. *)
Lemma openNode_WRONLY (r : Node) (path : string) :
  snd (openNode r path O_WRONLY) = r.
Proof.
  unfold openNode.
  destruct (resolve r path) as [[]|[? w|]]; try reflexivity.
  by destruct w.
Qed.

(** ** Runs of [getAPI] *)

Lemma afterRead_trace (args : list string) (w : World) :
  trace (afterRead args w) = trace w ++ [readEvent args].
Proof. by destruct args. Qed.

Lemma afterRead_root (args : list string) (w : World) :
  root (afterRead args w) = root w.
Proof. by destruct args. Qed.

Lemma hintOf_unknown (args : list string) : hintOf args = ctUnknown.
Proof.
  destruct args as [|arg0 [|? ?]]; try reflexivity.
  apply contentTypeOfExt_Ext.
Qed.

Lemma getAPI_read (args : list string) (w : World) (b : bytes) :
  inputOf args w = Some b ->
  getAPI args w = decodeAPI (hintOf args) b (afterRead args w).
Proof.
  destruct args as [|arg0 [|arg1 rest]]; simpl; intros H; try discriminate.
  - unfold getAPI, bind. simpl. destruct (stdin w); by simplify_eq.
  - unfold getAPI, bind. rewrite ioutil_ReadFile_run.
    destruct (readNode (root w) (filepath_Clean arg0)); by simplify_eq.
Qed.

Lemma decodeAPI_short (ct : contentType) (b : bytes) (w : World) :
  String.length b < 2 ->
  decodeAPI ct b w = (Err (errEmptyDocument b), w).
Proof.
  intros H. unfold decodeAPI.
  destruct (Nat.ltb_spec (String.length b) 2); [reflexivity|lia].
Qed.

Lemma decodeAPI_run (ct : contentType) (b : bytes) (w : World) :
  2 <= String.length b ->
  decodeAPI ct b w =
  (openapi3_LoadSwaggerFromData (jsonOf ct b), after w (decodeEvents ct b)).
Proof.
  intros H. unfold decodeAPI, decodeEvents, jsonOf.
  destruct (Nat.ltb_spec (String.length b) 2); [lia|].
  unfold bind, call_YAMLToJSON, call_LoadSwaggerFromData, bind, emit, ret.
  destruct (wantsYAML ct b); simpl.
  - destruct (yaml_YAMLToJSON b); simpl;
      match goal with |- context [openapi3_LoadSwaggerFromData ?j] =>
        destruct (openapi3_LoadSwaggerFromData j) end;
      unfold after, afterIn; simpl; by rewrite <- app_assoc.
  - by destruct (openapi3_LoadSwaggerFromData b).
Qed.

End Runs.

(** ** Runs of [ensureOutputDir] and of the [write...Go] functions *)

Section Emission.
Context `{CO : Collaborators}.
Variable opts : Options.

Lemma ensureOutputDir_run (w : World) :
  let out := optOutputPath opts in
  ensureOutputDir opts w =
  if String.eqb out "" then ((false, None), w)
  else match statNode (root w) out with
       | Err err =>
           if os_IsNotExist err then
             ((false, fst (mkdirNode (root w) out)),
              afterIn w (snd (mkdirNode (root w) out)) [EvStat out; EvMkdirAll out])
           else ((false, Some err), after w [EvStat out])
       | Ok fi =>
           if negb (IsDir fi) then
             ((false, Some (errNotDirectory out)), after w [EvStat out])
           else
             ((true, probeError opts (fst (openNode (root w) (filepath_Join out "test") O_WRONLY))),
              after w [EvStat out; EvOpenFile (filepath_Join out "test") O_WRONLY])
       end.
Proof.
  cbv zeta. unfold ensureOutputDir.
  destruct (String.eqb (optOutputPath opts) "") eqn:E; [reflexivity|].
  unfold bind at 1. rewrite os_Stat_run.
  destruct (statNode (root w) (optOutputPath opts)) as [fi|err].
  - destruct (IsDir fi); cbn [negb]; [|reflexivity].
    unfold bind. rewrite os_OpenFile_run.
    cbn [root after afterIn]. rewrite openNode_WRONLY.
    unfold after at 1. rewrite afterIn_afterIn. cbn [app]. fold (after w).
    destruct (fst (openNode (root w) (filepath_Join (optOutputPath opts) "test") O_WRONLY))
      as [err|]; cbn [probeError]; [|reflexivity].
    by destruct (os_IsPermission err).
  - destruct (os_IsNotExist err); [|reflexivity].
    unfold bind. rewrite os_MkdirAll_run. cbn [root after afterIn].
    unfold ret. f_equal. unfold afterIn. cbn. by rewrite <- app_assoc.
Qed.


Lemma ensureOutputDir_trace (w : World) :
  exists evs, trace (snd (ensureOutputDir opts w)) = trace w ++ evs
              /\ Forall (fun e => isDirCall e = true) evs.
Proof.
  rewrite ensureOutputDir_run. cbv zeta.
  destruct (String.eqb (optOutputPath opts) "").
  { exists []. cbn. by rewrite app_nil_r. }
  destruct (statNode (root w) (optOutputPath opts)) as [fi|err];
    [destruct (IsDir fi)|destruct (os_IsNotExist err)]; cbn [negb snd];
    eexists; (split; [reflexivity|]); repeat constructor.
Qed.

Lemma writeArtifact_trace (a : Artifact) (w : World) :
  trace (snd (writeArtifact opts a w)) = trace w ++ artifactEvents opts a.
Proof.
  unfold writeArtifact, renderTo, artifactEvents, outputEvents, bind,
    call_NewTemplate, call_Execute, fmt_Println, emit, ret; simpl.
  destruct (template_New (art_kind a) templatesDir) as [tpl|]; simpl; [|done].
  destruct (template_Execute tpl (art_vars a)) as [b|]; simpl.
  - destruct (String.eqb (optOutputPath opts) ""); simpl;
      by rewrite <- !app_assoc.
  - by rewrite <- !app_assoc.
Qed.

Lemma writeArtifact_rendered (a : Artifact) (w : World) :
  fst (writeArtifact opts a w) = None -> rendered opts a.
Proof.
  unfold writeArtifact, renderTo, rendered, artifactEvents, bind,
    call_NewTemplate, call_Execute, emit, ret; simpl.
  destruct (template_New (art_kind a) templatesDir) as [tpl|]; simpl; [|done].
  destruct (template_Execute tpl (art_vars a)) as [b|] eqn:X; simpl; [|done].
  intros _. exists tpl, b. by rewrite X.
Qed.

Lemma writeArtifact_print (a : Artifact) (w : World) :
  optOutputPath opts = "" ->
  root (snd (writeArtifact opts a w)) = root w
  /\ Forall (fun e => touchesFiles e = false) (artifactEvents opts a).
Proof.
  intros E.
  unfold writeArtifact, renderTo, artifactEvents, outputEvents, bind,
    call_NewTemplate, call_Execute, fmt_Println, emit, ret; rewrite E; simpl.
  destruct (template_New (art_kind a) templatesDir) as [tpl|]; simpl;
    [|split; [done|repeat constructor]].
  destruct (template_Execute tpl (art_vars a)) as [b|]; simpl;
    split; try done; repeat constructor.
Qed.

End Emission.

(** ** Runs of [generateTypes] *)

Section Driver.
Context `{CO : Collaborators}.
Variable opts : Options.

Lemma writeResources_writeAll (resources : list Resource) (w : World) :
  writeResources opts resources w = writeAll opts (map (resourceArtifact opts) resources) w.
Proof.
  revert w. induction resources as [|res rest IH]; intros w; [reflexivity|].
  cbn [writeResources map writeAll]. unfold bind.
  change (writeResourceGo opts res w) with (writeArtifact opts (resourceArtifact opts res) w).
  destruct (writeArtifact opts (resourceArtifact opts res) w) as [[err|] w1];
    [reflexivity|apply IH].
Qed.

(** [generateTypes] is [compile], then [ensureOutputDir], then the
    artifacts in order. *)
Lemma generateTypes_stages (args : list string) (w : World) :
  generateTypes opts args w =
  match compile args w with
  | (Err err, w1) => (Some err, w1)
  | (Ok (api, resources, typeDefs), w1) =>
      match ensureOutputDir opts w1 with
      | ((_, Some err), w2) => (Some err, w2)
      | ((_, None), w2) => writeAll opts (artifacts opts api resources typeDefs) w2
      end
  end.
Proof.
  unfold generateTypes, compile, bind.
  destruct (getAPI args w) as [[api|err] w1]; [|reflexivity].
  destruct (call_ResourcesFromAPI api w1) as [[resources|err] w2]; [|reflexivity].
  destruct (call_TypeDefsFromAPI api resources w2) as [[typeDefs|err] w3]; [|reflexivity].
  cbn [ret]. destruct (ensureOutputDir opts w3) as [[existed [err|]] w4]; cbn [snd];
    [reflexivity|].
  cbn [artifacts app writeAll]. unfold bind.
  change (writeDocGo opts api w4) with (writeArtifact opts (docArtifact opts api) w4).
  destruct (writeArtifact opts (docArtifact opts api) w4) as [[err|] w5]; [reflexivity|].
  change (writeGroupVersionInfoGo opts api w5)
    with (writeArtifact opts (groupVersionInfoArtifact opts api) w5).
  destruct (writeArtifact opts (groupVersionInfoArtifact opts api) w5) as [[err|] w6];
    [reflexivity|].
  change (writeTypesGo opts typeDefs w6)
    with (writeArtifact opts (typesArtifact opts typeDefs) w6).
  destruct (writeArtifact opts (typesArtifact opts typeDefs) w6) as [[err|] w7];
    [reflexivity|].
  apply writeResources_writeAll.
Qed.

Lemma compile_getAPI (args : list string) (w : World) :
  compile args w =
  (extract (fst (getAPI args w)),
   after (snd (getAPI args w)) (extractEvents (fst (getAPI args w)))).
Proof.
  unfold compile, bind.
  destruct (getAPI args w) as [[api|err] w1]; cbn [fst snd extract extractEvents].
  2: { by rewrite after_nil. }
  unfold call_ResourcesFromAPI, call_TypeDefsFromAPI, bind, emit, ret.
  destruct (resource_ResourcesFromAPI api) as [resources|err]; [|reflexivity].
  destruct (resource_TypeDefsFromAPI api resources) as [typeDefs|err];
    unfold after, afterIn; cbn; by rewrite <- app_assoc.
Qed.

Lemma writeAll_done (arts : list Artifact) (w w' : World) :
  writeAll opts arts w = (None, w') ->
  trace w' = trace w ++ flat_map (artifactEvents opts) arts
  /\ Forall (rendered opts) arts.
Proof.
  revert w. induction arts as [|a rest IH]; intros w; cbn [writeAll flat_map].
  - intros [= <-]. by rewrite app_nil_r.
  - unfold bind. pose proof (writeArtifact_trace opts a w) as T.
    pose proof (writeArtifact_rendered opts a w) as R.
    destruct (writeArtifact opts a w) as [[err|] w1]; [discriminate|].
    intros H. destruct (IH _ H) as [T' F]. cbn [snd] in T. split.
    + by rewrite T', T, <- app_assoc.
    + constructor; auto.
Qed.


Lemma writeAll_trace (arts : list Artifact) (w : World) :
  exists k, trace (snd (writeAll opts arts w))
            = trace w ++ flat_map (artifactEvents opts) (take k arts).
Proof.
  revert w. induction arts as [|a rest IH]; intros w; cbn [writeAll].
  - exists 0. cbn. by rewrite app_nil_r.
  - unfold bind. pose proof (writeArtifact_trace opts a w) as T.
    destruct (writeArtifact opts a w) as [[err|] w1]; cbn [snd] in T.
    + exists 1. cbn. by rewrite app_nil_r.
    + destruct (IH w1) as [k K]. exists (S k). cbn [take flat_map].
      by rewrite K, T, <- app_assoc.
Qed.

Lemma writeAll_print (arts : list Artifact) (w : World) :
  optOutputPath opts = "" ->
  root (snd (writeAll opts arts w)) = root w.
Proof.
  intros E. revert w. induction arts as [|a rest IH]; intros w; cbn [writeAll];
    [reflexivity|].
  unfold bind. destruct (writeArtifact_print opts a w E) as [R _].
  destruct (writeArtifact opts a w) as [[err|] w1]; cbn [snd] in R; [exact R|].
  by rewrite IH.
Qed.

End Driver.

Example clean_samples :
  Stub.clean "api.yaml" = "api.yaml"
  /\ Stub.clean "a//b/./c/.." = "a/b"
  /\ Stub.clean "/.." = "/"
  /\ Stub.clean "" = "."
  /\ Stub.clean "out/test" = "out/test"
  /\ Stub.clean "../x/" = "../x".
Proof. repeat split; reflexivity. Qed.

(** ** The calls of the loading stage *)

Section Loading.
Context `{CO : Collaborators}.
Variable opts : Options.

Lemma no_output_in (P : Event -> bool) (evs : list Event) :
  (forall e, P e = true -> isOutput e = false) ->
  Forall (fun e => P e = true) evs ->
  List.filter isOutput evs = [].
Proof.
  intros HP F. induction F as [|e evs He _ IH]; [reflexivity|].
  cbn. by rewrite (HP e He).
Qed.

Lemma decodeAPI_trace (ct : contentType) (b : bytes) (w : World) :
  root (snd (decodeAPI ct b w)) = root w
  /\ exists evs, trace (snd (decodeAPI ct b w)) = trace w ++ evs
                 /\ Forall (fun e => isLoadCall e = true) evs.
Proof.
  destruct (Nat.lt_ge_cases (String.length b) 2) as [S|L].
  - rewrite (decodeAPI_short ct b w S). cbn [snd]. split; [reflexivity|].
    exists []. by rewrite app_nil_r.
  - rewrite (decodeAPI_run ct b w L). cbn [snd]. split; [reflexivity|].
    eexists. split; [reflexivity|].
    unfold decodeEvents. destruct (wantsYAML ct b); repeat constructor.
Qed.

Lemma getAPI_trace (args : list string) (w : World) :
  root (snd (getAPI args w)) = root w
  /\ exists evs, trace (snd (getAPI args w)) = trace w ++ evs
                 /\ Forall (fun e => isLoadCall e = true) evs.
Proof.
  destruct (inputOf args w) as [b|] eqn:I.
  - rewrite (getAPI_read args w b I).
    destruct (decodeAPI_trace (hintOf args) b (afterRead args w)) as (R & evs & T & F).
    rewrite R, T, afterRead_root, afterRead_trace. split; [reflexivity|].
    exists (readEvent args :: evs). rewrite <- app_assoc. split; [reflexivity|].
    constructor; [by destruct args as [|? [|? ?]]|exact F].
  - destruct args as [|arg0 [|arg1 rest]]; cbn in I.
    + unfold getAPI, bind, ioutil_ReadAll_Stdin. destruct (stdin w); [discriminate|].
      cbn. split; [reflexivity|]. eexists. split; [reflexivity|]. repeat constructor.
    + unfold getAPI, bind. rewrite ioutil_ReadFile_run.
      destruct (readNode (root w) (filepath_Clean arg0)); [discriminate|].
      cbn. split; [reflexivity|]. eexists. split; [reflexivity|]. repeat constructor.
    + cbn. split; [reflexivity|]. exists []. by rewrite app_nil_r.
Qed.

(** A document was loaded only from bytes that were read, at least two of
    them. *)
Lemma getAPI_loaded (args : list string) (w w1 : World) (api : Swagger) :
  getAPI args w = (Ok api, w1) ->
  exists b,
    inputOf args w = Some b
    /\ 2 <= String.length b
    /\ openapi3_LoadSwaggerFromData (jsonOf (hintOf args) b) = Ok api
    /\ w1 = after (afterRead args w) (decodeEvents (hintOf args) b).
Proof.
  destruct (inputOf args w) as [b|] eqn:I.
  - rewrite (getAPI_read args w b I).
    destruct (Nat.lt_ge_cases (String.length b) 2) as [S|L].
    + rewrite (decodeAPI_short _ b _ S). discriminate.
    + rewrite (decodeAPI_run _ b _ L). intros [= H <-]. by exists b.
  - destruct args as [|arg0 [|arg1 rest]]; cbn in I.
    + unfold getAPI, bind, ioutil_ReadAll_Stdin. by destruct (stdin w).
    + unfold getAPI, bind. rewrite ioutil_ReadFile_run.
      by destruct (readNode (root w) (filepath_Clean arg0)).
    + discriminate.
Qed.

Lemma compile_trace (args : list string) (w : World) :
  root (snd (compile args w)) = root w
  /\ exists evs, trace (snd (compile args w)) = trace w ++ evs
                 /\ Forall (fun e => isLoadCall e || isExtractCall e = true) evs.
Proof.
  rewrite compile_getAPI. cbn [snd after afterIn root trace].
  destruct (getAPI_trace args w) as (R & evs & T & F).
  split; [exact R|]. rewrite T, <- app_assoc. eexists. split; [reflexivity|].
  apply Forall_app. split.
  - eapply Forall_impl; [exact F|]. intros e He. cbn beta in He. by rewrite He.
  - unfold extractEvents. destruct (fst (getAPI args w)) as [api|]; [|constructor].
    destruct (resource_ResourcesFromAPI api); repeat constructor.
Qed.

End Loading.

(** * The claims *)

Section Claims.
Context `{CO : Collaborators}.
Variable opts : Options.

(** C2, as the code has it: with no content-type hint the loader looks at
    the first byte of the input, blank or not.  When that byte is an
    opening brace or bracket the bytes go to the OpenAPI loader as they
    are and the YAML conversion is not called; otherwise the conversion is
    called first, and the loader gets its result, or the original bytes
    when it fails. *)
Theorem C2_first_byte_decides (args : list string) (w : World) (b : bytes) (c : ascii) :
  hintOf args = ctUnknown ->
  inputOf args w = Some b ->
  2 <= String.length b ->
  byte0 b = Some c ->
  (opensJSON c = true ->
     fst (getAPI args w) = openapi3_LoadSwaggerFromData b
     /\ trace (snd (getAPI args w)) = trace w ++ [readEvent args; EvLoadSwagger b])
  /\ (opensJSON c = false ->
     let jsonb := match yaml_YAMLToJSON b with Ok j => j | Err _ => b end in
     fst (getAPI args w) = openapi3_LoadSwaggerFromData jsonb
     /\ trace (snd (getAPI args w))
        = trace w ++ [readEvent args; EvYAMLToJSON b; EvLoadSwagger jsonb]).
Proof.
  intros H I L B. rewrite (getAPI_read args w b I), (decodeAPI_run _ b _ L), H.
  cbn [fst snd after afterIn trace]. rewrite afterRead_trace, <- app_assoc.
  unfold decodeEvents, jsonOf, wantsYAML, opensJSON. rewrite B. cbn [contentType_eqb orb andb app].
  split; intros O.
  - apply orb_true_iff in O. destruct O as [O|O]; rewrite O; cbn [negb andb]; [done|].
    by rewrite andb_false_r.
  - apply orb_false_iff in O. destruct O as [O1 O2]. by rewrite O1, O2.
Qed.

(** C5: with two or more arguments the loader returns the invocation
    error and the world is untouched, no read having been made; with no
    argument its first call reads standard input, with one argument its
    first call reads the file the argument names, and in both cases the
    bytes read go on to be decoded. *)
Theorem C5_argument_count (args : list string) (w : World) :
  (2 <= length args -> getAPI args w = (Err errInvalidInvocation, w))
  /\ (length args = 0 ->
      exists evs, trace (snd (getAPI args w)) = trace w ++ EvReadStdin :: evs)
  /\ (forall arg0, args = [arg0] ->
      exists evs, trace (snd (getAPI args w))
                  = trace w ++ EvReadFile (filepath_Clean arg0) :: evs)
  /\ (length args <= 1 -> forall b, inputOf args w = Some b ->
      getAPI args w = decodeAPI (hintOf args) b (afterRead args w)).
Proof.
  repeat split.
  - destruct args as [|arg0 [|arg1 rest]]; cbn [length]; intros H; try lia. reflexivity.
  - destruct args; [intros _|discriminate].
    unfold getAPI, bind, ioutil_ReadAll_Stdin.
    destruct (stdin w) as [b|]; [|by exists []].
    destruct (decodeAPI_trace ctUnknown b
      {| stdin := Ok ""; root := root w; trace := trace w ++ [EvReadStdin] |})
      as (_ & evs & T & _).
    exists evs. rewrite T. cbn [trace]. by rewrite <- app_assoc.
  - intros arg0 ->. unfold getAPI, bind. rewrite ioutil_ReadFile_run.
    destruct (readNode (root w) (filepath_Clean arg0)) as [b|]; [|by exists []].
    match goal with |- context [decodeAPI ?ct b ?w1] =>
      destruct (decodeAPI_trace ct b w1) as (_ & evs & T & _) end.
    exists evs. rewrite T. cbn [after afterIn trace]. by rewrite <- app_assoc.
  - intros _ b I. by apply getAPI_read.
Qed.

(** C6: when the bytes read are fewer than two, the loader returns the
    empty-document error, and the read is the only call it has made: the
    first byte is not looked at, and neither the YAML conversion nor the
    OpenAPI loader is called. *)
Theorem C6_short_input (args : list string) (w : World) (b : bytes) :
  inputOf args w = Some b ->
  String.length b < 2 ->
  fst (getAPI args w) = Err (errEmptyDocument b)
  /\ trace (snd (getAPI args w)) = trace w ++ [readEvent args].
Proof.
  intros I S. rewrite (getAPI_read args w b I), (decodeAPI_short _ b _ S).
  cbn [fst snd]. split; [reflexivity|apply afterRead_trace].
Qed.

End Claims.

Section EmissionClaims.
Context `{CO : Collaborators}.
Variable opts : Options.




(** C7: a run that succeeds has made its calls in this order: the read
    and the decoding of the document, the resource extractor on the
    document, the type definition extractor on the document and the
    resources, the output directory check, and then, for the module docs,
    the group-version info, the shared types and each resource in the
    order of the resource list, one template built, executed once and put
    out once. *)
Theorem C7_stages_in_order (args : list string) (w w' : World) :
  generateTypes opts args w = (None, w') ->
  exists b api resources typeDefs dirCalls,
    inputOf args w = Some b
    /\ openapi3_LoadSwaggerFromData (jsonOf (hintOf args) b) = Ok api
    /\ resource_ResourcesFromAPI api = Ok resources
    /\ resource_TypeDefsFromAPI api resources = Ok typeDefs
    /\ Forall (fun e => isDirCall e = true) dirCalls
    /\ artifacts opts api resources typeDefs
       = [docArtifact opts api; groupVersionInfoArtifact opts api;
          typesArtifact opts typeDefs] ++ map (resourceArtifact opts) resources
    /\ Forall (rendered opts) (artifacts opts api resources typeDefs)
    /\ trace w' = trace w
         ++ readEvent args :: decodeEvents (hintOf args) b
         ++ [EvResourcesFromAPI api; EvTypeDefsFromAPI api resources]
         ++ dirCalls
         ++ flat_map (artifactEvents opts) (artifacts opts api resources typeDefs).
Proof.
  rewrite generateTypes_stages, compile_getAPI.
  destruct (getAPI args w) as [[api|err] w1] eqn:G; cbn [fst snd extract extractEvents];
    [|discriminate].
  destruct (getAPI_loaded args w w1 api G) as (b & I & L & J & ->).
  destruct (resource_ResourcesFromAPI api) as [resources|] eqn:R; [|discriminate].
  destruct (resource_TypeDefsFromAPI api resources) as [typeDefs|] eqn:T; [|discriminate].
  match goal with |- context [ensureOutputDir opts ?w2] =>
    destruct (ensureOutputDir_trace opts w2) as (dirCalls & D & F);
    destruct (ensureOutputDir opts w2) as [[existed [e|]] w3]; [discriminate|] end.
  intros H. destruct (writeAll_done opts _ _ _ H) as [Tr Re].
  exists b, api, resources, typeDefs, dirCalls. repeat split; try done.
  rewrite Tr. cbn [snd] in D. rewrite D. cbn [after afterIn trace].
  rewrite afterRead_trace. rewrite <- !app_assoc. reflexivity.
Qed.

Lemma filter_isOutput_flat_map (f : Artifact -> list Event) (arts : list Artifact) :
  List.filter isOutput (flat_map f arts)
  = flat_map (fun a => List.filter isOutput (f a)) arts.
Proof.
  induction arts as [|a rest IH]; [reflexivity|].
  cbn [flat_map]. by rewrite List.filter_app, IH.
Qed.

(** With no output path, what a rendered artifact puts out is its banner
    line and its trimmed text. *)
Lemma printed_of_rendered (o : Options) (arts : list Artifact) :
  optOutputPath o = "" ->
  Forall (rendered o) arts ->
  flat_map (fun a => List.filter isOutput (artifactEvents o a)) arts
  = flat_map printedEvents arts
  /\ Forall (fun a => exists b,
               rendersTo a b
               /\ printedEvents a
                  = [EvStdout (banner (art_file a) +:+ newline);
                     EvStdout (strings_TrimSpace b +:+ newline)])
            arts.
Proof.
  intros E F. induction F as [|a rest (tpl & b & N & X & _) _ [IH1 IH2]];
    [by split|].
  assert (P : printedEvents a
              = [EvStdout (banner (art_file a) +:+ newline);
                 EvStdout (strings_TrimSpace b +:+ newline)]).
  { unfold printedEvents. by rewrite N, X. }
  split.
  - cbn [flat_map]. rewrite IH1, P. f_equal.
    unfold artifactEvents, outputEvents. by rewrite N, X, E.
  - constructor; [|exact IH2]. exists b. split; [by exists tpl|exact P].
Qed.

(** C8: the version flag defaults to v1alpha1 and the output flag to the
    empty string; with an empty output path a run leaves the file tree as
    it was and makes no call that writes, creates or opens for writing,
    and every artifact whose template is built and executed is printed:
    its banner line, then its trimmed text.  This is stated for
    [writeTypesGo], and for a whole run: what a successful run of
    [generateTypes] puts out is, for the module docs, the group-version
    info, the shared types and each resource in turn, the banner line and
    the trimmed text, on standard output. *)
Theorem C8_defaults_print (o : Options) (args : list string) (w : World) :
  optOutputPath o = "" ->
  optGenVersion defaultOptions = "v1alpha1"
  /\ optOutputPath defaultOptions = ""
  /\ root (snd (generateTypes o args w)) = root w
  /\ (exists evs, trace (snd (generateTypes o args w)) = trace w ++ evs
                  /\ Forall (fun e => touchesFiles e = false) evs)
  /\ (forall a tpl b w0,
      template_New (art_kind a) templatesDir = Ok tpl ->
      template_Execute tpl (art_vars a) = Ok b ->
      writeArtifact o a w0
      = (None, after w0 [EvNewTemplate (art_kind a) templatesDir;
                         EvExecute tpl (art_vars a);
                         EvStdout (banner (art_file a) +:+ newline);
                         EvStdout (strings_TrimSpace b +:+ newline)]))
  /\ (forall typeDefs tpl b w0,
      template_New TypesTemplate templatesDir = Ok tpl ->
      template_Execute tpl (TypesTemplateVars (optGenVersion o) typeDefs) = Ok b ->
      writeTypesGo o typeDefs w0
      = (None, after w0 [EvNewTemplate TypesTemplate templatesDir;
                         EvExecute tpl (TypesTemplateVars (optGenVersion o) typeDefs);
                         EvStdout (banner "types.go" +:+ newline);
                         EvStdout (strings_TrimSpace b +:+ newline)]))
  /\ (forall w' api resources typeDefs evs,
      generateTypes o args w = (None, w') ->
      fst (compile args w) = Ok (api, resources, typeDefs) ->
      trace w' = trace w ++ evs ->
      List.filter isOutput evs = flat_map printedEvents (artifacts o api resources typeDefs)
      /\ Forall (fun a => exists b,
                   rendersTo a b
                   /\ printedEvents a
                      = [EvStdout (banner (art_file a) +:+ newline);
                         EvStdout (strings_TrimSpace b +:+ newline)])
                (artifacts o api resources typeDefs)).
Proof.
  intros E. split; [reflexivity|]. split; [reflexivity|].
  assert (D : forall w1, ensureOutputDir o w1 = ((false, None), w1)).
  { intros w1. rewrite ensureOutputDir_run. cbv zeta. by rewrite E. }
  assert (P : forall a tpl b w0,
      template_New (art_kind a) templatesDir = Ok tpl ->
      template_Execute tpl (art_vars a) = Ok b ->
      writeArtifact o a w0
      = (None, after w0 [EvNewTemplate (art_kind a) templatesDir;
                         EvExecute tpl (art_vars a);
                         EvStdout (banner (art_file a) +:+ newline);
                         EvStdout (strings_TrimSpace b +:+ newline)])).
  { intros a tpl b w0 N X.
    unfold writeArtifact, renderTo, bind, call_NewTemplate, call_Execute,
      fmt_Println, emit, ret; cbn. rewrite N; cbn. rewrite X, E; cbn.
    unfold after, afterIn; cbn. by rewrite <- !app_assoc. }
  split; [|split; [|split; [exact P|split]]].
  - rewrite generateTypes_stages. destruct (compile_trace args w) as (R & _).
    destruct (compile args w) as [[[[api resources] typeDefs]|err] w1]; cbn [snd] in *;
      [|exact R].
    rewrite D. by rewrite (writeAll_print o _ w1 E).
  - rewrite generateTypes_stages. destruct (compile_trace args w) as (_ & evs & T & F).
    assert (Q : Forall (fun e => touchesFiles e = false) evs).
    { eapply Forall_impl; [exact F|]. by intros []. }
    destruct (compile args w) as [[[[api resources] typeDefs]|err] w1]; cbn [snd] in *;
      [|by exists evs].
    rewrite D. destruct (writeAll_trace o (artifacts o api resources typeDefs) w1) as [k K].
    rewrite K, T, <- app_assoc. eexists. split; [reflexivity|].
    apply Forall_app. split; [exact Q|].
    apply Forall_flat_map, Forall_forall. intros a _.
    by destruct (writeArtifact_print o a w E).
  - intros typeDefs tpl b w0 N X.
    exact (P (typesArtifact o typeDefs) tpl b w0 N X).
  - intros w' api resources typeDefs evs. rewrite generateTypes_stages.
    destruct (compile_trace args w) as (_ & cevs & T & F).
    destruct (compile args w) as [[[[api' rs'] tds']|err] w1]; cbn [fst snd] in *;
      [|discriminate].
    rewrite D. intros H [= -> -> ->] Tw.
    destruct (writeAll_done o _ _ _ H) as [Tr Re].
    destruct (printed_of_rendered o _ E Re) as [F1 F2].
    split; [|exact F2].
    rewrite Tr, T, <- app_assoc in Tw. apply app_inv_head in Tw. subst evs.
    rewrite List.filter_app, filter_isOutput_flat_map, F1.
    rewrite (no_output_in (fun e => isLoadCall e || isExtractCall e) cevs); [reflexivity| |exact F].
    by intros [].
Qed.

End EmissionClaims.

Section GroupAndDirectory.
Context `{CO : Collaborators}.
Variable opts : Options.

(** C9: the API group is the alias followed by the fixed suffix, with
    every double-quote byte removed, the alias being the marshalled
    extension value when the attribute is present and [unknown] when it is
    not.  The suffix holds no quote, so only the alias loses bytes, and no
    quote is left in the result. *)
Theorem C9_api_group (api : Swagger) :
  (forall apiAlias,
     Info_Extensions api !! "x-aws-api-alias" = Some apiAlias ->
     apiGroupFromSwagger api
     = filterString notQuote (MarshalJSON apiAlias +:+ ".services.k8s.aws")
     /\ apiGroupFromSwagger api
        = filterString notQuote (MarshalJSON apiAlias) +:+ ".services.k8s.aws")
  /\ (Info_Extensions api !! "x-aws-api-alias" = None ->
      apiGroupFromSwagger api = "unknown.services.k8s.aws")
  /\ occurs quote (apiGroupFromSwagger api) = false.
Proof.
  assert (G : forall alias,
    strings_ReplaceAll (alias +:+ ".services.k8s.aws") quoteString ""
    = filterString notQuote (alias +:+ ".services.k8s.aws")).
  { intros alias. unfold strings_ReplaceAll.
    change (String.eqb quoteString "") with false. cbv iota.
    apply replaceFrom_quote. }
  unfold apiGroupFromSwagger. split; [|split].
  - intros apiAlias ->. split; [apply G|]. by rewrite G, filterString_app.
  - intros ->. by rewrite G.
  - rewrite G. apply occurs_filterString.
Qed.

Lemma openNode_WRONLY_result (r : Node) (path : string) :
  (openable r path -> fst (openNode r path O_WRONLY) = None)
  /\ (~ openable r path -> exists err, fst (openNode r path O_WRONLY) = Some err).
Proof.
  unfold openable, openNode.
  destruct (resolve r path) as [e|[data wr|dw ents]].
  - split; [by intros [? ?]|intros _]. destruct e; cbn; eauto.
  - destruct wr; cbn; split; eauto.
    + intros N. destruct N. eauto.
    + by intros [? ?].
  - split; [by intros [? ?]|intros _]. cbn. eauto.
Qed.

(** C10, as the code has it.  With no output path nothing is done and the
    result is (false, nil).  When the output path names nothing, the only
    calls are the stat and the directory creation, with no probe, and the
    error returned is the one of the creation, nil when it succeeds.  When
    the output path names a directory, the one further call opens the
    [test] path under it write-only without the create flag, the tree is
    left as it was, and the result is an error unless that path already is
    a file the user may write. *)
Theorem C10_output_directory (w : World) :
  let out := optOutputPath opts in
  let testPath := filepath_Join out "test" in
  (out = "" -> ensureOutputDir opts w = ((false, None), w))
  /\ (out <> "" -> resolve (root w) out = inl ENOENT ->
      ensureOutputDir opts w
      = ((false, fst (mkdirNode (root w) out)),
         afterIn w (snd (mkdirNode (root w) out)) [EvStat out; EvMkdirAll out]))
  /\ (forall dw ents,
      out <> "" -> resolve (root w) out = inr (Dir dw ents) ->
      snd (ensureOutputDir opts w) = after w [EvStat out; EvOpenFile testPath O_WRONLY]
      /\ Z.land O_WRONLY O_CREATE = 0%Z
      /\ (openable (root w) testPath -> fst (ensureOutputDir opts w) = (true, None))
      /\ (~ openable (root w) testPath ->
          exists err, fst (ensureOutputDir opts w) = (true, Some err))).
Proof.
  cbv zeta. rewrite ensureOutputDir_run. cbv zeta. split; [|split].
  - by intros ->.
  - intros N R. apply String.eqb_neq in N. rewrite N.
    unfold statNode. by rewrite R.
  - intros dw ents N R. apply String.eqb_neq in N. rewrite N.
    unfold statNode. rewrite R. cbn [IsDir negb fst snd].
    split; [reflexivity|]. split; [reflexivity|]. split; intros O.
    + by rewrite (proj1 (openNode_WRONLY_result _ _) O).
    + destruct (proj2 (openNode_WRONLY_result _ _) O) as [err ->].
      cbn [probeError]. destruct (os_IsPermission err); eauto.
Qed.

End GroupAndDirectory.

(** * Further properties *)

(** ** The file tree *)

Lemma entry_setEntry_eq (name : string) (n : Node) (ents : list (string * Node)) :
  entry name (setEntry name n ents) = Some n.
Proof.
  induction ents as [|[k m] ents IH]; cbn [setEntry entry].
  - by rewrite String.eqb_refl.
  - destruct (String.eqb k name) eqn:E; cbn [entry]; by rewrite E.
Qed.

Lemma entry_setEntry_ne (name other : string) (n : Node) (ents : list (string * Node)) :
  name <> other ->
  entry other (setEntry name n ents) = entry other ents.
Proof.
  intros N. induction ents as [|[k m] ents IH]; cbn [setEntry entry].
  - apply String.eqb_neq in N. by rewrite N.
  - destruct (String.eqb k name) eqn:E; cbn [entry].
    + apply String.eqb_eq in E. subst k. apply String.eqb_neq in N. by rewrite N.
    + by rewrite IH.
Qed.

Lemma walk_app (r : Node) (p q : list string) :
  walk r (p ++ q) = match walk r p with
                    | inr n => walk n q
                    | inl e => inl e
                    end.
Proof.
  revert r. induction p as [|c p IH]; intros r; [reflexivity|].
  cbn [app walk]. destruct r as [|w ents]; [reflexivity|].
  destruct (entry c ents); [apply IH|reflexivity].
Qed.

(** A file that was written is there, with the bytes written. *)
Lemma writeAt_walk (data : bytes) (p : list string) (r r' : Node) :
  writeAt data r p = inr r' ->
  exists wr, walk r' p = inr (File data wr).
Proof.
  revert r r'. induction p as [|c p IH]; intros r r'; cbn [writeAt walk].
  - destruct r as [d w|w ents]; [|discriminate].
    destruct w; [|discriminate]. intros [= <-]. eauto.
  - destruct r as [d w|w ents]; [discriminate|].
    destruct (entry c ents) as [n|] eqn:E.
    + destruct (writeAt data n p) as [e|n'] eqn:W; [discriminate|].
      intros [= <-]. cbn [walk]. rewrite entry_setEntry_eq. by apply (IH n).
    + destruct p; [|discriminate]. destruct w; [|discriminate].
      intros [= <-]. cbn [walk]. rewrite entry_setEntry_eq. eauto.
Qed.

(** Writing one file leaves every other file as it was. *)
Lemma writeAt_other (data : bytes) (p q : list string) (r r' : Node) (d : bytes) (wr : bool) :
  writeAt data r p = inr r' ->
  p <> q ->
  walk r q = inr (File d wr) ->
  walk r' q = inr (File d wr).
Proof.
  revert r r' q. induction p as [|c p IH]; intros r r' q; cbn [writeAt].
  - destruct r as [d0 w|w ents]; [|discriminate].
    destruct q; [congruence|discriminate].
  - destruct r as [d0 w|w ents]; [discriminate|].
    destruct q as [|c' q]; [discriminate|]. cbn [walk].
    destruct (entry c ents) as [n|] eqn:E.
    + destruct (writeAt data n p) as [e|n'] eqn:W; [discriminate|].
      intros [= <-] N. cbn [walk].
      destruct (decide (c = c')) as [<-|Nc].
      * rewrite E, entry_setEntry_eq. apply (IH n); [exact W|congruence].
      * by rewrite (entry_setEntry_ne c c' _ _ Nc).
    + destruct p; [|discriminate]. destruct w; [|discriminate].
      intros [= <-] N. cbn [walk].
      destruct (decide (c = c')) as [<-|Nc].
      * by rewrite E.
      * by rewrite (entry_setEntry_ne c c' _ _ Nc).
Qed.


(** Along a fresh chain of directories the last one is empty. *)
Lemma mkdirAt_fresh (p : list string) :
  exists n, mkdirAt (Dir true []) p = inr n /\ walk n p = inr (Dir true []).
Proof.
  induction p as [|c p (n & M & W)]; cbn [mkdirAt walk entry]; [eauto|].
  rewrite M. eexists. split; [reflexivity|].
  cbn [walk setEntry entry]. by rewrite String.eqb_refl.
Qed.

(** A directory that had to be created is empty and writable. *)
Lemma mkdirAt_created (p : list string) (r r' : Node) :
  walk r p = inl ENOENT ->
  mkdirAt r p = inr r' ->
  walk r' p = inr (Dir true []).
Proof.
  revert r r'. induction p as [|c p IH]; intros r r'; cbn [mkdirAt walk];
    [discriminate|].
  destruct r as [d w|w ents]; [discriminate|].
  destruct (entry c ents) as [n|] eqn:E.
  - destruct (mkdirAt n p) as [e|n'] eqn:M; [discriminate|].
    intros W [= <-]. cbn [walk]. rewrite entry_setEntry_eq. by apply (IH n).
  - destruct w; [|discriminate]. intros _.
    destruct (mkdirAt_fresh p) as (n & M & W). rewrite M.
    intros [= <-]. cbn [walk]. by rewrite entry_setEntry_eq.
Qed.

(** Creating directories leaves every file as it was. *)
Lemma mkdirAt_other (p q : list string) (r r' : Node) (d : bytes) (wr : bool) :
  mkdirAt r p = inr r' ->
  walk r q = inr (File d wr) ->
  walk r' q = inr (File d wr).
Proof.
  revert r r' q. induction p as [|c p IH]; intros r r' q; cbn [mkdirAt].
  - destruct r; [discriminate|]. by intros [= <-].
  - destruct r as [d0 w|w ents]; [discriminate|].
    destruct q as [|c' q]; [discriminate|]. cbn [walk].
    destruct (entry c ents) as [n|] eqn:E.
    + destruct (mkdirAt n p) as [e|n'] eqn:M; [discriminate|].
      intros [= <-]. cbn [walk].
      destruct (decide (c = c')) as [<-|Nc].
      * rewrite E, entry_setEntry_eq. by apply (IH n).
      * by rewrite (entry_setEntry_ne c c' _ _ Nc).
    + destruct w; [|discriminate].
      destruct (mkdirAt (Dir true []) p) as [e|n']; [discriminate|].
      intros [= <-]. cbn [walk].
      destruct (decide (c = c')) as [<-|Nc].
      * by rewrite E.
      * by rewrite (entry_setEntry_ne c c' _ _ Nc).
Qed.

(** ** The loader and the output directory *)

Section LoaderAndDirectory.
Context `{CO : Collaborators}.
Variable opts : Options.

(** X1: the loader only reads.  Whatever the arguments and the world, the
    file tree after [getAPI] is the one before, and the calls it made, at
    most three, are the read, the YAML conversion and the OpenAPI
    loader. *)
Theorem X1_getAPI_only_reads (args : list string) (w : World) :
  root (snd (getAPI args w)) = root w
  /\ exists evs, trace (snd (getAPI args w)) = trace w ++ evs
                 /\ Forall (fun e => isLoadCall e = true) evs
                 /\ length evs <= 3.
Proof.
  destruct (inputOf args w) as [b|] eqn:I.
  - rewrite (getAPI_read args w b I).
    assert (R : isLoadCall (readEvent args) = true) by (by destruct args as [|? [|? ?]]).
    destruct (Nat.lt_ge_cases (String.length b) 2) as [S|L].
    + rewrite (decodeAPI_short _ b _ S). cbn [snd].
      rewrite afterRead_root, afterRead_trace. split; [reflexivity|].
      eexists. split; [reflexivity|]. split; [by repeat constructor|cbn; lia].
    + rewrite (decodeAPI_run _ b _ L). cbn [snd after afterIn root trace].
      rewrite afterRead_root, afterRead_trace, <- app_assoc. split; [reflexivity|].
      eexists. split; [reflexivity|]. unfold decodeEvents.
      destruct (wantsYAML (hintOf args) b); (split; [by repeat constructor|cbn; lia]).
  - destruct args as [|arg0 [|arg1 rest]]; cbn in I.
    + unfold getAPI, bind, ioutil_ReadAll_Stdin. destruct (stdin w); [discriminate|].
      cbn. split; [reflexivity|]. eexists. split; [reflexivity|].
      split; [by repeat constructor|cbn; lia].
    + unfold getAPI, bind. rewrite ioutil_ReadFile_run.
      destruct (readNode (root w) (filepath_Clean arg0)); [discriminate|].
      cbn. split; [reflexivity|]. eexists. split; [reflexivity|].
      split; [by repeat constructor|cbn; lia].
    + cbn. split; [reflexivity|]. exists []. rewrite app_nil_r.
      split; [reflexivity|]. split; [constructor|cbn; lia].
Qed.

(** X2: a file that cannot be read ends the loader with the error of the
    read, as it is; a standard input that cannot be read ends it with the
    fixed invocation error, the error of the read being dropped.  In both
    cases the read is the only call made. *)
Theorem X2_read_failures (w : World) :
  (forall arg0 e,
     readNode (root w) (filepath_Clean arg0) = Err e ->
     getAPI [arg0] w = (Err e, after w [EvReadFile (filepath_Clean arg0)]))
  /\ (forall e,
     stdin w = Err e ->
     fst (getAPI [] w) = Err errInvalidInvocation
     /\ trace (snd (getAPI [] w)) = trace w ++ [EvReadStdin]
     /\ root (snd (getAPI [] w)) = root w).
Proof.
  split.
  - intros arg0 e R. unfold getAPI, bind. rewrite ioutil_ReadFile_run. by rewrite R.
  - intros e S. unfold getAPI, bind, ioutil_ReadAll_Stdin. by rewrite S.
Qed.

(** X3: the flag [ensureOutputDir] returns is true exactly when an output
    path is set and names a directory that was already there. *)
Theorem X3_existed_flag (w : World) :
  fst (fst (ensureOutputDir opts w)) = true
  <-> optOutputPath opts <> ""
      /\ exists dw ents, resolve (root w) (optOutputPath opts) = inr (Dir dw ents).
Proof.
  rewrite ensureOutputDir_run. cbv zeta. unfold statNode.
  destruct (String.eqb_spec (optOutputPath opts) "") as [E|N].
  - cbn. split; [discriminate|]. by intros [? _].
  - destruct (resolve (root w) (optOutputPath opts)) as [e|[d wr|dw ents]].
    + destruct (os_IsNotExist _); cbn; (split; [discriminate|]); by intros (_ & ? & ? & ?).
    + cbn. split; [discriminate|]. by intros (_ & ? & ? & ?).
    + cbn. split; [|reflexivity]. intros _. split; [exact N|]. eauto.
Qed.

(** X4: the errors of the directory check.  When the stat fails with an
    error other than not-exist, that error is returned as it is, with the
    flag false, the stat being the only call made: no directory is
    created.  When the path is there and is not a directory, the error is
    the not-a-directory error, with the flag false, after the stat alone.
    When the path is a directory and the probe fails, the flag is true
    and the error is the one of the open as it is, unless it is a
    permission error, which the not-writeable error replaces; the tree is
    left as it was. *)
Theorem X4_directory_check_errors (w : World) :
  optOutputPath opts <> "" ->
  let out := optOutputPath opts in
  let testPath := filepath_Join out "test" in
  (forall err,
     statNode (root w) out = Err err ->
     os_IsNotExist err = false ->
     ensureOutputDir opts w = ((false, Some err), after w [EvStat out]))
  /\ (forall fi,
     statNode (root w) out = Ok fi ->
     IsDir fi = false ->
     ensureOutputDir opts w = ((false, Some (errNotDirectory out)), after w [EvStat out]))
  /\ (forall fi err,
     statNode (root w) out = Ok fi ->
     IsDir fi = true ->
     fst (openNode (root w) testPath O_WRONLY) = Some err ->
     ensureOutputDir opts w
     = ((true, Some (if os_IsPermission err then errNotWriteable out else err)),
        after w [EvStat out; EvOpenFile testPath O_WRONLY])).
Proof.
  intros N. cbv zeta. rewrite ensureOutputDir_run. cbv zeta.
  apply String.eqb_neq in N. rewrite N. split; [|split].
  - by intros err -> ->.
  - by intros fi -> ->.
  - intros fi err -> -> ->. cbn [negb probeError]. by destruct (os_IsPermission err).
Qed.

(** X5: when the output path, a path with no [..] element, names nothing
    and [ensureOutputDir] returns no error, the path names an empty
    directory afterwards, and every file of the tree is still there with
    its bytes. *)
Theorem X5_directory_created (w : World) :
  optOutputPath opts <> "" ->
  noParent (optOutputPath opts) ->
  resolve (root w) (optOutputPath opts) = inl ENOENT ->
  snd (fst (ensureOutputDir opts w)) = None ->
  (exists dw,
     resolve (root (snd (ensureOutputDir opts w))) (optOutputPath opts) = inr (Dir dw []))
  /\ (forall path d wr,
      resolve (root w) path = inr (File d wr) ->
      resolve (root (snd (ensureOutputDir opts w))) path = inr (File d wr)).
Proof.
  intros N _ R. rewrite ensureOutputDir_run. cbv zeta.
  pose proof N as N'. apply String.eqb_neq in N'. rewrite N'.
  unfold statNode. rewrite R. cbn [os_IsNotExist fst snd afterIn root].
  unfold mkdirNode. rewrite N'. unfold resolve in R. rewrite N' in R.
  destruct (mkdirAt (root w) (components (optOutputPath opts))) as [e|r'] eqn:M;
    cbn [fst snd]; [discriminate|]. intros _. split.
  - exists true. unfold resolve. rewrite N'. by apply (mkdirAt_created _ (root w)).
  - intros path d wr. unfold resolve. destruct (String.eqb path ""); [discriminate|].
    by apply (mkdirAt_other _ _ _ _ _ _ M).
Qed.

(** X6: the check does not pass twice.  After [ensureOutputDir] has
    created the directory of an output path with no [..] element, a second
    call finds the directory, probes the [test] path under it, and
    returns an error: the directory is new, and nothing under it can be
    opened. *)
Theorem X6_second_check_fails (w : World) :
  optOutputPath opts <> "" ->
  noParent (optOutputPath opts) ->
  resolve (root w) (optOutputPath opts) = inl ENOENT ->
  snd (fst (ensureOutputDir opts w)) = None ->
  joinsUnder (optOutputPath opts) "test" ->
  exists err,
    fst (ensureOutputDir opts (snd (ensureOutputDir opts w))) = (true, Some err).
Proof.
  intros N _ R S [J1 J2].
  assert (D : resolve (root (snd (ensureOutputDir opts w))) (optOutputPath opts)
              = inr (Dir true [])).
  { revert S. rewrite ensureOutputDir_run. cbv zeta.
    pose proof N as N'. apply String.eqb_neq in N'. rewrite N'.
    unfold statNode. rewrite R. cbn [os_IsNotExist fst snd afterIn root].
    unfold mkdirNode. rewrite N'. unfold resolve in R |- *. rewrite N' in R |- *.
    destruct (mkdirAt (root w) (components (optOutputPath opts))) as [e|r'] eqn:M;
      cbn [fst snd]; [discriminate|]. intros _. by apply (mkdirAt_created _ (root w)). }
  rewrite (ensureOutputDir_run opts (snd (ensureOutputDir opts w))). cbv zeta.
  pose proof N as N'. apply String.eqb_neq in N'. rewrite N'.
  unfold statNode. rewrite D. cbn [IsDir negb fst]. unfold openNode.
  assert (T : resolve (root (snd (ensureOutputDir opts w)))
                (filepath_Join (optOutputPath opts) "test") = inl ENOENT).
  { unfold resolve in D |- *. rewrite N' in D. apply String.eqb_neq in J1.
    rewrite J1, J2, walk_app, D. reflexivity. }
  rewrite T. eauto.
Qed.

(** X7: a run into an existing directory that holds no writable [test]
    file fails at the directory check.  The document has been loaded and
    both extractors have run; after them the only calls are the stat and
    the probe: no template is built, nothing is written or printed. *)
Theorem X7_existing_directory_rejected (args : list string) (w : World)
    (m : Swagger * list Resource * list TypeDef) (dw : bool) (ents : list (string * Node)) :
  optOutputPath opts <> "" ->
  resolve (root w) (optOutputPath opts) = inr (Dir dw ents) ->
  ~ openable (root w) (filepath_Join (optOutputPath opts) "test") ->
  fst (compile args w) = Ok m ->
  exists err,
    generateTypes opts args w
    = (Some err,
       after (snd (compile args w))
         [EvStat (optOutputPath opts);
          EvOpenFile (filepath_Join (optOutputPath opts) "test") O_WRONLY]).
Proof.
  intros N R O C. rewrite generateTypes_stages.
  destruct (compile_trace args w) as [Rt _].
  destruct (compile args w) as [[[[api resources] typeDefs]|err] w1]; cbn [fst snd] in *;
    [|discriminate].
  rewrite ensureOutputDir_run. cbv zeta. apply String.eqb_neq in N. rewrite N.
  unfold statNode. rewrite Rt, R. cbn [IsDir negb].
  destruct (proj2 (openNode_WRONLY_result _ _) O) as [err ->].
  cbn [probeError]. destruct (os_IsPermission err); eauto.
Qed.

(** X14: what a successful run into an output path needs.  When a run
    with an output path set returns no error, the path named nothing
    before the run, or it named a directory in which the [test] path
    already was a file the user may write. *)
Theorem X14_success_needs_fresh_or_probed (args : list string) (w w' : World) :
  optOutputPath opts <> "" ->
  generateTypes opts args w = (None, w') ->
  resolve (root w) (optOutputPath opts) = inl ENOENT
  \/ ((exists dw ents, resolve (root w) (optOutputPath opts) = inr (Dir dw ents))
      /\ openable (root w) (filepath_Join (optOutputPath opts) "test")).
Proof.
  intros N. rewrite generateTypes_stages.
  destruct (compile_trace args w) as [Rt _].
  destruct (compile args w) as [[[[api resources] typeDefs]|err] w1]; cbn [fst snd] in *;
    [|discriminate].
  rewrite ensureOutputDir_run. cbv zeta. apply String.eqb_neq in N. rewrite N.
  unfold statNode. rewrite Rt.
  destruct (resolve (root w) (optOutputPath opts)) as [e|[d wr|dw ents]].
  - destruct e; cbn [os_IsNotExist]; try discriminate. eauto.
  - discriminate.
  - cbn [IsDir negb]. unfold openNode, openable. intros H. right. split; [eauto|].
    destruct (resolve (root w) (filepath_Join (optOutputPath opts) "test"))
      as [e|[d [|]|dw' ents']]; [destruct e| | |]; try discriminate. eauto.
Qed.

End LoaderAndDirectory.

(** ** The artifacts in the file tree *)

Section ArtifactsOnDisk.
Context `{CO : Collaborators}.
Variable opts : Options.

(** With an output path set, an artifact written without error was
    rendered and then written at its path by one [WriteFile]. *)
Lemma writeArtifact_written (a : Artifact) (w w' : World) :
  optOutputPath opts <> "" ->
  writeArtifact opts a w = (None, w') ->
  exists b,
    rendersTo a b
    /\ filepath_Join (optOutputPath opts) (art_file a) <> ""
    /\ writeAt b (root w) (artifactPath opts a) = inr (root w').
Proof.
  intros N. apply String.eqb_neq in N.
  unfold writeArtifact, renderTo, rendersTo, artifactPath,
    call_NewTemplate, call_Execute, bind, emit, ret. cbv beta iota zeta.
  destruct (template_New (art_kind a) templatesDir) as [tpl|] eqn:T; [|discriminate].
  destruct (template_Execute tpl (art_vars a)) as [b|] eqn:X; [|discriminate].
  rewrite N, ioutil_WriteFile_run. cbn [root]. unfold writeNode.
  destruct (String.eqb_spec (filepath_Join (optOutputPath opts) (art_file a)) "") as [E|E];
    [discriminate|].
  destruct (writeAt b (root w) _) as [e|r'] eqn:W; cbn [fst snd]; [discriminate|].
  intros [= <-]. exists b. cbn [afterIn root]. eauto.
Qed.

Lemma readNode_walk (r : Node) (path : string) (b : bytes) (wr : bool) :
  path <> "" ->
  walk r (components path) = inr (File b wr) ->
  readNode r path = Ok b.
Proof.
  intros N W. apply String.eqb_neq in N. unfold readNode, resolve. by rewrite N, W.
Qed.

(** X8: with an output path set, an artifact written without error can
    be read back: the file under the output path holds the bytes its
    template rendered, and every other file of the tree is as it was. *)
Theorem X8_written_artifact_reads_back (a : Artifact) (w w' : World) :
  optOutputPath opts <> "" ->
  writeArtifact opts a w = (None, w') ->
  exists b,
    rendersTo a b
    /\ readNode (root w') (filepath_Join (optOutputPath opts) (art_file a)) = Ok b
    /\ (forall q d wr,
        q <> artifactPath opts a ->
        walk (root w) q = inr (File d wr) ->
        walk (root w') q = inr (File d wr)).
Proof.
  intros N H. destruct (writeArtifact_written a w w' N H) as (b & R & J & W).
  exists b. split; [exact R|]. split.
  - destruct (writeAt_walk _ _ _ _ W) as [wr Wk]. by apply (readNode_walk _ _ _ wr).
  - intros q d wr Nq. apply (writeAt_other _ _ _ _ _ _ _ W). congruence.
Qed.

Lemma writeAll_on_disk (arts : list Artifact) (w w' : World) :
  optOutputPath opts <> "" ->
  writeAll opts arts w = (None, w') ->
  NoDup (map (artifactPath opts) arts) ->
  Forall (fun a => exists b,
            rendersTo a b
            /\ readNode (root w') (filepath_Join (optOutputPath opts) (art_file a)) = Ok b)
         arts
  /\ (forall q d wr,
      q ∉ map (artifactPath opts) arts ->
      walk (root w) q = inr (File d wr) ->
      walk (root w') q = inr (File d wr)).
Proof.
  intros N. revert w. induction arts as [|a rest IH]; intros w; cbn [writeAll map].
  - intros [= <-] _. split; [constructor|auto].
  - unfold bind. destruct (writeArtifact opts a w) as [[err|] w1] eqn:A; [discriminate|].
    intros H D. apply NoDup_cons in D as [Na D].
    destruct (IH w1 H D) as [F P].
    destruct (writeArtifact_written a w w1 N A) as (b & R & J & W).
    split.
    + constructor; [|exact F]. exists b. split; [exact R|].
      destruct (writeAt_walk _ _ _ _ W) as [wr Wk].
      apply (readNode_walk _ _ _ wr J). by apply P.
    + intros q d wr Nq Wq. apply not_elem_of_cons in Nq as [Nq1 Nq2].
      apply P; [exact Nq2|]. apply (writeAt_other _ _ _ _ _ _ _ W); [congruence|exact Wq].
Qed.

(** X9: a successful run with an output path set leaves every artifact
    in the file tree, provided no two artifacts go to the same path: for
    the module docs, the group-version info, the shared types and each
    resource, the file under the output path holds the bytes its template
    rendered. *)
Theorem X9_artifacts_on_disk (args : list string) (w w' : World)
    (api : Swagger) (resources : list Resource) (typeDefs : list TypeDef) :
  optOutputPath opts <> "" ->
  generateTypes opts args w = (None, w') ->
  fst (compile args w) = Ok (api, resources, typeDefs) ->
  NoDup (map (artifactPath opts) (artifacts opts api resources typeDefs)) ->
  Forall (fun a => exists b,
            rendersTo a b
            /\ readNode (root w') (filepath_Join (optOutputPath opts) (art_file a)) = Ok b)
         (artifacts opts api resources typeDefs).
Proof.
  intros N. rewrite generateTypes_stages.
  destruct (compile args w) as [[[[api' rs'] tds']|err] w1]; cbn [fst]; [|discriminate].
  destruct (ensureOutputDir opts w1) as [[existed [e|]] w2]; [discriminate|].
  intros H [= <- <- <-] D. by destruct (writeAll_on_disk _ _ _ N H D).
Qed.





(** X12: with an output path set a run prints nothing: none of its calls
    writes to standard output, whether the run succeeds or fails. *)
Theorem X12_output_path_never_prints (args : list string) (w : World) :
  optOutputPath opts <> "" ->
  exists evs,
    trace (snd (generateTypes opts args w)) = trace w ++ evs
    /\ Forall (fun e => isStdout e = false) evs.
Proof.
  intros N. apply String.eqb_neq in N. rewrite generateTypes_stages.
  destruct (compile_trace args w) as (_ & evs & T & F).
  assert (Q : Forall (fun e => isStdout e = false) evs).
  { eapply Forall_impl; [exact F|]. by intros []. }
  destruct (compile args w) as [[[[api resources] typeDefs]|err] w1]; cbn [snd] in *;
    [|by exists evs].
  destruct (ensureOutputDir_trace opts w1) as (dirCalls & D & Fd).
  assert (Qd : Forall (fun e => isStdout e = false) dirCalls).
  { eapply Forall_impl; [exact Fd|]. by intros []. }
  destruct (ensureOutputDir opts w1) as [[existed [e|]] w2]; cbn [snd] in D |- *.
  - exists (evs ++ dirCalls). rewrite D, T, <- app_assoc. split; [reflexivity|].
    apply Forall_app. by split.
  - destruct (writeAll_trace opts (artifacts opts api resources typeDefs) w2) as [k K].
    rewrite K, D, T, <- !app_assoc. eexists. split; [reflexivity|].
    apply Forall_app. split; [exact Q|]. apply Forall_app. split; [exact Qd|].
    apply Forall_flat_map, Forall_forall. intros a _.
    unfold artifactEvents, outputEvents. rewrite N.
    destruct (template_New (art_kind a) templatesDir) as [tpl|]; [|by repeat constructor].
    destruct (template_Execute tpl (art_vars a)); by repeat constructor.
Qed.

(** X13: a run whose document does not load, or whose resources or type
    definitions cannot be extracted, leaves the output path alone: it
    returns that error, the tree is as it was, and every call it made is a
    call of the loader or of an extractor, so the output directory is
    neither looked at nor created and no template is built. *)
Theorem X13_failed_compile_leaves_output_alone (args : list string) (w : World) (e : error) :
  fst (compile args w) = Err e ->
  generateTypes opts args w = (Some e, snd (compile args w))
  /\ root (snd (generateTypes opts args w)) = root w
  /\ exists evs,
       trace (snd (generateTypes opts args w)) = trace w ++ evs
       /\ Forall (fun ev => isLoadCall ev || isExtractCall ev = true) evs.
Proof.
  intros C. rewrite generateTypes_stages.
  destruct (compile_trace args w) as (R & evs & T & F).
  destruct (compile args w) as [[[[api resources] typeDefs]|err] w1]; cbn [fst snd] in *;
    [discriminate|].
  injection C as ->. split; [reflexivity|]. split; [exact R|]. by exists evs.
Qed.

End ArtifactsOnDisk.

(** ** The API group of a quoted alias *)

Lemma append_empty_r (s : string) : s +:+ "" = s.
Proof.
  induction s as [|c s IH]; [reflexivity|].
  change (String c s +:+ "") with (String c (s +:+ "")). by rewrite IH.
Qed.

Lemma filterString_notQuote_id (s : string) :
  occurs quote s = false -> filterString notQuote s = s.
Proof.
  induction s as [|c s IH]; [reflexivity|]. cbn [occurs filterString].
  intros [E O]%orb_false_iff.
  assert (K : notQuote c = true).
  { unfold notQuote, isQuote. by rewrite Ascii.eqb_sym, E. }
  by rewrite K, IH.
Qed.

Section QuotedAlias.
Context `{CO : Collaborators}.

(** X10: the API group of an alias that holds no double quote.  When the
    extension value is the alias between two double quotes, as a JSON
    string is written, the group is the alias itself followed by the
    suffix; when the value holds no double quote at all it is kept as it
    is. *)
Theorem X10_alias_unquoted (api : Swagger) (s : string) :
  occurs quote s = false ->
  (Info_Extensions api !! "x-aws-api-alias" = Some (Some (quoteString +:+ s +:+ quoteString)) ->
     apiGroupFromSwagger api = s +:+ ".services.k8s.aws")
  /\ (Info_Extensions api !! "x-aws-api-alias" = Some (Some s) ->
     apiGroupFromSwagger api = s +:+ ".services.k8s.aws").
Proof.
  intros O.
  assert (G : forall alias,
    strings_ReplaceAll (alias +:+ ".services.k8s.aws") quoteString ""
    = filterString notQuote alias +:+ ".services.k8s.aws").
  { intros alias. unfold strings_ReplaceAll.
    change (String.eqb quoteString "") with false. cbv iota.
    rewrite replaceFrom_quote. fold notQuote. by rewrite filterString_app. }
  unfold apiGroupFromSwagger, RawMessage. split; intros ->; cbn [MarshalJSON]; rewrite G.
  - rewrite !filterString_app, (filterString_notQuote_id s O).
    change (filterString notQuote quoteString) with "". by rewrite append_empty_r.
  - by rewrite (filterString_notQuote_id s O).
Qed.

End QuotedAlias.

(** * The claims on concrete runs *)

#[local] Existing Instance Stub.data.
#[local] Existing Instance Stub.extractors.
#[local] Existing Instance Stub.plain.

(** C3: the switch on the extension never sets the content type.
    [filepath.Ext] returns the extension with its dot, and the cases of
    lines 255-258 are written without it, so for every argument, whatever
    [filepath.Clean] makes of it, the content type stays unknown.  On the
    file api.yaml holding a YAML flow mapping, which begins with a brace,
    the loader therefore skips the YAML conversion, although it would
    succeed, and hands the raw bytes to the OpenAPI loader. *)
Theorem C3_extension_never_sets_hint :
  (forall `{CO : Collaborators} (arg0 : string), hintOf [arg0] = ctUnknown)
  /\ filepath_Ext (filepath_Clean "api.yaml") = ".yaml"
  /\ contentTypeOfExt ".yaml" = ctUnknown
  /\ inputOf ["api.yaml"] (Stub.world "") = Some "{a: 1}"
  /\ yaml_YAMLToJSON "{a: 1}" = Ok "{}"
  /\ trace (snd (getAPI ["api.yaml"] (Stub.world "")))
     = [EvReadFile "api.yaml"; EvLoadSwagger "{a: 1}"].
Proof.
  split; [intros; apply hintOf_unknown|]. repeat split; reflexivity.
Qed.

(** C2 fails as stated: the input of three bytes, a blank and a pair of
    braces, has an opening brace as its first non-blank byte, and the YAML
    conversion is called on it. *)
Lemma C2_counterexample_leading_blank :
  hintOf [] = ctUnknown
  /\ inputOf [] (Stub.world " {}") = Some " {}"
  /\ firstNonSpace " {}" = Some "{"%char
  /\ trace (snd (getAPI [] (Stub.world " {}")))
     = [EvReadStdin; EvYAMLToJSON " {}"; EvLoadSwagger "{}"].
Proof. repeat split; reflexivity. Qed.


(** C10 fails as stated: the output path names nothing, and the call
    returns an error, the directory above it not being writable. *)
Lemma C10_counterexample_creation_fails :
  resolve Stub.tree "ro/out" = inl ENOENT
  /\ ensureOutputDir (Stub.toDir "ro/out") (Stub.world "{}")
     = ((false, Some (PathError "mkdir" "ro/out" EACCES)),
        {| stdin := Ok "{}"; root := Stub.tree;
           trace := [EvStat "ro/out"; EvMkdirAll "ro/out"] |}).
Proof. split; vm_compute; reflexivity. Qed.

Lemma C2_witness :
  fst (getAPI ["api.json"] (Stub.world ""))
  = openapi3_LoadSwaggerFromData "{}"
  /\ trace (snd (getAPI ["api.json"] (Stub.world "")))
     = [] ++ [EvReadFile "api.json"; EvLoadSwagger "{}"].
Proof.
  refine (proj1 (C2_first_byte_decides ["api.json"] (Stub.world "")
                   "{}" "{"%char _ _ _ _) _); reflexivity.
Defined.


Lemma C5_witness :
  getAPI ["api.yaml"; "api.json"] (Stub.world "{}")
  = (Err errInvalidInvocation, Stub.world "{}").
Proof.
  apply (proj1 (C5_argument_count ["api.yaml"; "api.json"]
                  (Stub.world "{}"))).
  cbn. lia.
Defined.

Lemma C6_witness :
  fst (getAPI [] (Stub.world "{")) = Err (errEmptyDocument "{")
  /\ trace (snd (getAPI [] (Stub.world "{"))) = [] ++ [EvReadStdin].
Proof.
  apply (C6_short_input [] (Stub.world "{") "{"); [reflexivity|].
  cbn. lia.
Defined.

Lemma C7_witness :
  exists b api resources typeDefs dirCalls,
    inputOf [] (Stub.world "{}") = Some b
    /\ openapi3_LoadSwaggerFromData
         (jsonOf (hintOf []) b) = Ok api
    /\ resource_ResourcesFromAPI api = Ok resources
    /\ resource_TypeDefsFromAPI api resources = Ok typeDefs
    /\ Forall (fun e => isDirCall e = true) dirCalls
    /\ artifacts defaultOptions api resources typeDefs
       = [docArtifact defaultOptions api; groupVersionInfoArtifact defaultOptions api;
          typesArtifact defaultOptions typeDefs]
         ++ map (resourceArtifact defaultOptions) resources
    /\ Forall (rendered defaultOptions) (artifacts defaultOptions api resources typeDefs)
    /\ trace (snd (generateTypes defaultOptions [] (Stub.world "{}")))
       = trace (Stub.world "{}")
         ++ readEvent []
            :: decodeEvents (hintOf []) b
         ++ [EvResourcesFromAPI api; EvTypeDefsFromAPI api resources]
         ++ dirCalls
         ++ flat_map (artifactEvents defaultOptions)
              (artifacts defaultOptions api resources typeDefs).
Proof.
  apply (C7_stages_in_order defaultOptions [] (Stub.world "{}")).
  vm_compute. reflexivity.
Defined.

Lemma C8_witness :
  List.filter isOutput
    (trace (snd (generateTypes defaultOptions ["api.json"] (Stub.world ""))))
  = [EvStdout (banner "doc.go" +:+ newline);
     EvStdout ("// +groupName=unknown.services.k8s.aws" +:+ newline);
     EvStdout (banner "groupversion_info.go" +:+ newline);
     EvStdout ("package v1alpha1" +:+ newline);
     EvStdout (banner "types.go" +:+ newline);
     EvStdout ("package v1alpha1" +:+ newline);
     EvStdout (banner "widget.go" +:+ newline);
     EvStdout ("type Widget struct" +:+ newline)].
Proof.
  destruct (C8_defaults_print defaultOptions ["api.json"] (Stub.world "") eq_refl)
    as (_ & _ & _ & _ & _ & _ & P).
  destruct (P (snd (generateTypes defaultOptions ["api.json"] (Stub.world "")))
              Stub.widgets ["Widget"] ["WidgetSpec"]
              (trace (snd (generateTypes defaultOptions ["api.json"] (Stub.world "")))))
    as [F _]; [vm_compute; reflexivity|reflexivity|reflexivity|].
  rewrite F. vm_compute. reflexivity.
Defined.

Lemma C9_witness :
  apiGroupFromSwagger Stub.rds = "rds.services.k8s.aws".
Proof.
  refine (proj2 (proj1 (C9_api_group Stub.rds)
                   (Some (quoteString +:+ "rds" +:+ quoteString)) _)).
  vm_compute. reflexivity.
Defined.

Lemma C10_witness :
  exists err,
    fst (ensureOutputDir (Stub.toDir "gen") (Stub.world "{}"))
    = (true, Some err).
Proof.
  refine (proj2 (proj2 (proj2 (proj2 (proj2
            (C10_output_directory (Stub.toDir "gen") (Stub.world "{}")))
            true [] _ _))) _).
  - vm_compute. discriminate.
  - reflexivity.
  - intros [data H]. vm_compute in H. discriminate.
Defined.

(** * The further properties on concrete runs *)

Lemma X4_witness :
  ensureOutputDir (Stub.toDir "api.json") (Stub.world "{}")
  = ((false, Some (errNotDirectory "api.json")),
     after (Stub.world "{}") [EvStat "api.json"]).
Proof.
  refine (proj1 (proj2 (X4_directory_check_errors (Stub.toDir "api.json")
                          (Stub.world "{}") _))
            {| IsDir := false |} _ _).
  - discriminate.
  - reflexivity.
  - reflexivity.
Defined.

Lemma X5_witness :
  exists dw,
    resolve (root (snd (ensureOutputDir (Stub.toDir "out") (Stub.world "{}")))) "out"
    = inr (Dir dw []).
Proof.
  refine (proj1 (X5_directory_created (Stub.toDir "out") (Stub.world "{}") _ _ _ _)).
  - discriminate.
  - apply (bool_decide_unpack _). vm_compute. exact I.
  - reflexivity.
  - reflexivity.
Defined.

Lemma X6_witness :
  exists err,
    fst (ensureOutputDir (Stub.toDir "out")
           (snd (ensureOutputDir (Stub.toDir "out") (Stub.world "{}"))))
    = (true, Some err).
Proof.
  refine (X6_second_check_fails (Stub.toDir "out") (Stub.world "{}") _ _ _ _ _).
  - discriminate.
  - apply (bool_decide_unpack _). vm_compute. exact I.
  - reflexivity.
  - reflexivity.
  - split; [vm_compute; discriminate|reflexivity].
Defined.

Lemma X7_witness :
  exists err,
    generateTypes (Stub.toDir "gen") [] (Stub.world "{}")
    = (Some err,
       after (snd (compile [] (Stub.world "{}")))
         [EvStat "gen"; EvOpenFile (filepath_Join "gen" "test") O_WRONLY]).
Proof.
  refine (X7_existing_directory_rejected (Stub.toDir "gen") [] (Stub.world "{}")
            (Stub.widgets, ["Widget"], ["WidgetSpec"]) true [] _ _ _ _).
  - discriminate.
  - reflexivity.
  - intros [data H]. vm_compute in H. discriminate.
  - reflexivity.
Defined.

Lemma X8_witness :
  exists b,
    rendersTo (docArtifact (Stub.toDir "gen") Stub.rds) b
    /\ readNode
         (root (snd (writeArtifact (Stub.toDir "gen")
                       (docArtifact (Stub.toDir "gen") Stub.rds) (Stub.world "{}"))))
         (filepath_Join "gen" "doc.go")
       = Ok b
    /\ (forall q d wr,
        q <> artifactPath (Stub.toDir "gen") (docArtifact (Stub.toDir "gen") Stub.rds) ->
        walk Stub.tree q = inr (File d wr) ->
        walk (root (snd (writeArtifact (Stub.toDir "gen")
                           (docArtifact (Stub.toDir "gen") Stub.rds) (Stub.world "{}"))))
             q
        = inr (File d wr)).
Proof.
  refine (X8_written_artifact_reads_back (Stub.toDir "gen")
            (docArtifact (Stub.toDir "gen") Stub.rds) (Stub.world "{}") _ _ _).
  - discriminate.
  - vm_compute. reflexivity.
Defined.

Lemma X9_witness :
  Forall (fun a => exists b,
            rendersTo a b
            /\ readNode
                 (root (snd (generateTypes (Stub.toDir "out") ["api.json"] (Stub.world ""))))
                 (filepath_Join "out" (art_file a))
               = Ok b)
         (artifacts (Stub.toDir "out") Stub.widgets ["Widget"] ["WidgetSpec"]).
Proof.
  refine (X9_artifacts_on_disk (Stub.toDir "out") ["api.json"] (Stub.world "") _
            Stub.widgets ["Widget"] ["WidgetSpec"] _ _ _ _).
  - discriminate.
  - vm_compute. reflexivity.
  - reflexivity.
  - apply (bool_decide_unpack _). vm_compute. exact I.
Defined.

Lemma X10_witness :
  apiGroupFromSwagger Stub.rds = "rds" +:+ ".services.k8s.aws".
Proof.
  refine (proj1 (X10_alias_unquoted Stub.rds "rds" _) _).
  - reflexivity.
  - vm_compute. reflexivity.
Defined.


Lemma X12_witness :
  exists evs,
    trace (snd (generateTypes (Stub.toDir "gen") ["api.yaml"] (Stub.world "")))
    = trace (Stub.world "") ++ evs
    /\ Forall (fun e => isStdout e = false) evs.
Proof.
  refine (X12_output_path_never_prints (Stub.toDir "gen") ["api.yaml"] (Stub.world "") _).
  discriminate.
Defined.

Lemma X13_witness :
  generateTypes (Stub.toDir "out") [] (Stub.world "x")
  = (Some (errEmptyDocument "x"), snd (compile [] (Stub.world "x")))
  /\ root (snd (generateTypes (Stub.toDir "out") [] (Stub.world "x"))) = root (Stub.world "x")
  /\ exists evs,
       trace (snd (generateTypes (Stub.toDir "out") [] (Stub.world "x")))
       = trace (Stub.world "x") ++ evs
       /\ Forall (fun ev => isLoadCall ev || isExtractCall ev = true) evs.
Proof.
  refine (X13_failed_compile_leaves_output_alone (Stub.toDir "out") [] (Stub.world "x")
            (errEmptyDocument "x") _).
  reflexivity.
Defined.

Lemma X14_witness :
  resolve (root (Stub.world "{}")) "out" = inl ENOENT
  \/ ((exists dw ents, resolve (root (Stub.world "{}")) "out" = inr (Dir dw ents))
      /\ openable (root (Stub.world "{}")) (filepath_Join "out" "test")).
Proof.
  refine (X14_success_needs_fresh_or_probed (Stub.toDir "out") [] (Stub.world "{}") _ _ _).
  - discriminate.
  - vm_compute. reflexivity.
Defined.
